(** * SainteLyon scraper: a shallow embedding of [scraping_stl.py]

    The script fetches ranking pages and runner pages, walks the parsed
    XML with ElementTree queries, and appends one dictionary per runner to
    a global list.  The embedding keeps that shape: XML elements are
    trees with an attribute dictionary, Python dictionaries are [gmap]s
    keyed by strings, and every operation that can raise in Python
    ([d[k]], [l[i]], [x.attrib] on [None], [raise_for_status]) returns in
    the error monad [res]. *)

From Stdlib Require Import Ascii.
From stdpp Require Import base option list gmap strings pretty.


(** ** Exceptions and the error monad *)

Inductive exn : Type :=
  | KeyError (k : string)
  | IndexError
  | AttributeError
  | HTTPError
  | ParseError.

Inductive res (A : Type) : Type :=
  | Ok (a : A)
  | Raise (e : exn).
Arguments Ok {A} a.
Arguments Raise {A} e.

#[global] Instance res_ret : MRet res := λ A a, Ok a.
#[global] Instance res_bind : MBind res := λ A B f m,
  match m with
  | Ok a => f a
  | Raise e => Raise e
  end.
#[global] Instance res_fmap : FMap res := λ A B f m,
  match m with
  | Ok a => Ok (f a)
  | Raise e => Raise e
  end.

#[global] Instance exn_eq_dec : EqDecision exn.
Proof. solve_decision. Defined.
#[global] Instance res_eq_dec {A} `{EqDecision A} : EqDecision (res A).
Proof. solve_decision. Defined.

(** ** Python values stored in the result rows *)

(** [VNaN] is [np.nan], the marker of a checkpoint without a time.  The
    only list stored in a row is the list of past achievements, whose
    entries are dictionaries of strings or [None]. *)
Inductive pyval : Type :=
  | VNone
  | VNaN
  | VInt (z : Z)
  | VStr (s : string)
  | VList (l : list (gmap string (option string))).

#[global] Instance pyval_eq_dec : EqDecision pyval.
Proof. solve_decision. Defined.

(** [d.get(k)] for a dictionary of strings stored into a row. *)
Definition py_get (d : gmap string string) (k : string) : pyval :=
  match d !! k with
  | Some v => VStr v
  | None => VNone
  end.

(** [d[k]] *)
Definition subscript {V} (d : gmap string V) (k : string) : res V :=
  match d !! k with
  | Some v => Ok v
  | None => Raise (KeyError k)
  end.

(** [l[i]] for a non-negative index *)
Definition item {A} (l : list A) (i : nat) : res A :=
  match l !! i with
  | Some x => Ok x
  | None => Raise IndexError
  end.

(** [for x in l: s = body(s, x)], stopping at the first exception. *)
Fixpoint for_each {S A} (body : S → A → res S) (l : list A) (s : S) : res S :=
  match l with
  | [] => Ok s
  | x :: l' => s' ← body s x; for_each body l' s'
  end.

(** ** ElementTree elements and the path queries the script uses *)

#[local] Unset Elimination Schemes.
Inductive Element : Type :=
  | Elem (tag : string) (attrib : gmap string string) (children : list Element).
#[local] Set Elimination Schemes.

Definition tag (e : Element) : string := let 'Elem t _ _ := e in t.
Definition attrib (e : Element) : gmap string string := let 'Elem _ a _ := e in a.
Definition children (e : Element) : list Element := let 'Elem _ _ c := e in c.

(** [elem.iter()]: the element and all its descendants in document order. *)
Fixpoint iter (e : Element) : list Element :=
  match e with
  | Elem _ _ cs => e :: flat_map iter cs
  end.

(** The descendants of [e] (the element itself is left out, as the
    [//] step of ElementPath does). *)
Definition descendants (e : Element) : list Element :=
  flat_map iter (children e).

Definition has_tag (t : string) (e : Element) : bool :=
  bool_decide (tag e = t).

(** [root.findall(".//t")] *)
Definition findall1 (t : string) (root : Element) : list Element :=
  List.filter (has_tag t) (descendants root).

(** [root.findall(".//p/t")]: for every descendant tagged [p], in document
    order, its children tagged [t]. *)
Definition findall2 (p t : string) (root : Element) : list Element :=
  flat_map (λ e, List.filter (has_tag t) (children e)) (findall1 p root).

(** [root.find(".//t")]: the first match, or [None]. *)
Definition find1 (t : string) (root : Element) : option Element :=
  head (findall1 t root).

(** [x.attrib] where [x] may be [None] *)
Definition attrib_of (x : option Element) : res (gmap string string) :=
  match x with
  | Some e => Ok (attrib e)
  | None => Raise AttributeError
  end.

(** ** HTTP responses and the pattern of [extract_bib_numbers] *)

Record Response : Type := mkResponse {
  status_code : Z;
  text : string;
  content : string
}.

(** The double-quote character. *)
Definition dquote : ascii := Ascii false true false false false true false false.

(** The literal head of the pattern: [doss=] and a double quote. *)
Definition doss_open : string := "doss=" +:+ String dquote "".

(** [strip_prefix p s = Some r] when [s] is [p] followed by [r]. *)
Fixpoint strip_prefix (p s : string) : option string :=
  match p, s with
  | EmptyString, _ => Some s
  | String a p', String b s' =>
      if decide (a = b) then strip_prefix p' s' else None
  | String _ _, EmptyString => None
  end.

(** *** Characters

    A Python [str] is a sequence of Unicode characters; it is modelled by
    the string of its UTF-8 bytes.  One character is then a chunk of one
    to four bytes: the first byte tells the length of the chunk, the
    others are continuation bytes.  The functions below are meant for
    the bytes of a well-formed text. *)

(** The length of the chunk that starts with byte [b0]; 0 when [b0]
    cannot start a chunk. *)
Definition char_len (b0 : ascii) : nat :=
  let n := N_of_ascii b0 in
  if (n <? 128)%N then 1
  else if (n <? 192)%N then 0
  else if (n <? 224)%N then 2
  else if (n <? 240)%N then 3
  else if (n <? 248)%N then 4
  else 0.

Definition is_cont (b : ascii) : bool :=
  (128 <=? N_of_ascii b)%N && (N_of_ascii b <? 192)%N.

Section Pattern.

(** [\d] on one character, given as its chunk of bytes.  For a [str]
    pattern this is the class of the decimal digits of the Unicode
    database of the interpreter (the digits 0 to 9 and those of many
    other scripts); that table is not part of the script. *)
Variable isdecimal : string → bool.

(** The longest run of digit characters at the head of [s], and what
    follows it. *)
Fixpoint span_digits (s : string) : string * string :=
  match s with
  | EmptyString => (EmptyString, EmptyString)
  | String b0 s1 =>
      match char_len b0 with
      | 1 =>
          if isdecimal (String b0 EmptyString)
          then let '(d, r) := span_digits s1 in (String b0 d, r)
          else (EmptyString, s)
      | 2 =>
          match s1 with
          | String b1 s2 =>
              if is_cont b1 && isdecimal (String b0 (String b1 EmptyString))
              then let '(d, r) := span_digits s2 in (String b0 (String b1 d), r)
              else (EmptyString, s)
          | _ => (EmptyString, s)
          end
      | 3 =>
          match s1 with
          | String b1 (String b2 s3) =>
              if is_cont b1 && is_cont b2
                 && isdecimal (String b0 (String b1 (String b2 EmptyString)))
              then let '(d, r) := span_digits s3 in
                   (String b0 (String b1 (String b2 d)), r)
              else (EmptyString, s)
          | _ => (EmptyString, s)
          end
      | 4 =>
          match s1 with
          | String b1 (String b2 (String b3 s4)) =>
              if is_cont b1 && is_cont b2 && is_cont b3
                 && isdecimal (String b0 (String b1 (String b2 (String b3 EmptyString))))
              then let '(d, r) := span_digits s4 in
                   (String b0 (String b1 (String b2 (String b3 d))), r)
              else (EmptyString, s)
          | _ => (EmptyString, s)
          end
      | _ => (EmptyString, s)
      end
  end.

(** One attempt of the pattern (the literal [doss=], a double quote, the
    group [\d+], a double quote) at the head of [s]: the captured group
    when it matches.  The greedy [\d+] takes the whole run
    of digits; giving digits back cannot help, since the next character
    would then be a digit and not the closing quote. *)
Definition match_doss (s : string) : option string :=
  r ← strip_prefix doss_open s;
  let '(d, r') := span_digits r in
  match d, r' with
  | String _ _, String q _ => if decide (q = dquote) then Some d else None
  | _, _ => None
  end.

(** [re.findall] for that pattern: scan from left to right; a match
    consumes its characters ([skip] counts the bytes still to pass), so
    matches do not overlap.  The literal starts with a one-byte
    character, so no match starts inside a chunk. *)
Fixpoint scan (skip : nat) (s : string) : list string :=
  match s with
  | EmptyString => []
  | String _ s' =>
      match skip with
      | S k => scan k s'
      | O =>
          match match_doss s with
          | Some d => d :: scan (String.length doss_open + String.length d) s'
          | None => scan 0 s'
          end
      end
  end.

Definition re_findall_doss (s : string) : list string := scan 0 s.

End Pattern.

(** ** Resources to scrape *)

(** The dictionary [urls], as the list of its items in insertion order
    (the literal repeats the key 2013 with the same value): the year, the
    ranking page and the prefix of the runner pages. *)
Definition urls : list (Z * (string * string)) := [
  (2024%Z, ("https://saintelyon.livetrail.net/classement.php?course=82km&cat=scratch", "https://saintelyon.livetrail.net/coureur.php?rech="));
  (2023%Z, ("https://livetrail.net/histo/saintelyon_2023/classement.php?course=78km&cat=scratch", "https://livetrail.net/histo/saintelyon_2023/coureur.php?rech="));
  (2022%Z, ("https://livetrail.net/histo/saintelyon_2022/classement.php?course=78km&cat=scratch", "https://livetrail.net/histo/saintelyon_2022/coureur.php?rech="));
  (2021%Z, ("https://livetrail.net/histo/saintelyon_2021/classement.php?course=78km&cat=scratch", "https://livetrail.net/histo/saintelyon_2021/coureur.php?rech="));
  (2019%Z, ("https://livetrail.net/histo/saintelyon_2019/classement.php?course=76km&cat=scratch", "https://livetrail.net/histo/saintelyon_2019/coureur.php?rech="));
  (2018%Z, ("https://livetrail.net/histo/saintelyon_2018/classement.php?course=81km&cat=scratch", "https://livetrail.net/histo/saintelyon_2018/coureur.php?rech="));
  (2016%Z, ("https://livetrail.net/histo/saintelyon_2016/classement.php?course=72km&cat=scratch", "https://livetrail.net/histo/saintelyon_2016/coureur.php?rech="));
  (2015%Z, ("https://livetrail.net/histo/saintelyon_2015/classement.php?course=75km&cat=scratch", "https://livetrail.net/histo/saintelyon_2015/coureur.php?rech="));
  (2014%Z, ("https://livetrail.net/histo/saintelyon_2014/classement.php?course=75km&cat=scratch", "https://livetrail.net/histo/saintelyon_2014/coureur.php?rech="));
  (2013%Z, ("https://livetrail.net/histo/saintelyon_2013/classement.php?course=75km&cat=scratch", "https://livetrail.net/histo/saintelyon_2013/coureur.php?rech="))
].

Definition url2017 : string :=
  "https://livetrail.net/histo/saintelyon_2017/classement.php?course=72km&cat=scratch".

(** [response.raise_for_status()]: client and server error codes raise. *)
Definition raise_for_status (response : Response) : res unit :=
  if bool_decide (400 ≤ status_code response < 600)%Z then Raise HTTPError else Ok ().

(** The global state of the script: the two accumulators, what was
    printed, and the tables last written under each file name (the CSV
    text that pandas derives from a table is not modelled). *)
Record store : Type := mkStore {
  data : list (gmap string pyval);
  checkpoint_data : list (gmap string pyval);
  stdout : list string;
  files : gmap string (list (gmap string pyval))
}.

Definition initial_store : store := mkStore [] [] [] ∅.

#[global] Instance store_eq_dec : EqDecision store.
Proof. solve_decision. Defined.

(** ** The outside world: HTTP and the XML parser *)

Section World.

(** The decimal digits of the interpreter, see [span_digits]. *)
Variable isdecimal : string → bool.
(** [requests.get]; a transport failure raises. *)
Variable requests_get : string → res Response.
(** [ET.fromstring]; malformed XML raises. *)
Variable fromstring : string → res Element.

(** *** Helper functions of the script *)

(** Returns what was printed together with the list of bib numbers. *)
Definition extract_bib_numbers (url : string) : res (list string * list string) :=
  response ← requests_get url;
  if decide (status_code response = 200%Z) then
    let content := text response in
    let bib_numbers := re_findall_doss isdecimal content in
    Ok ([], bib_numbers)
  else
    Ok (["Failed to retrieve the page"], []).

(** One round of the loop of [extract_checkpoints]: [acc] is the
    dictionary being filled and the counter [i]. *)
Definition checkpoint_round (acc : gmap string pyval * nat) (cp : Element)
  : res (gmap string pyval * nat) :=
  let '(checkpoints_info, i) := acc in
  n ← subscript (attrib cp) "n";
  if bool_decide (n = "Animation 500m") || bool_decide (n = "KM BV SPORT") then
    Ok (checkpoints_info, i)
  else
    km ← subscript (attrib cp) "km";
    a ← subscript (attrib cp) "a";
    d ← subscript (attrib cp) "d";
    Ok (<["Pt" +:+ pretty i +:+ " total elevation" := VStr d]>
        (<["Pt" +:+ pretty i +:+ " height" := VStr a]>
        (<["Pt" +:+ pretty i +:+ " distance" := VStr km]>
        (<["Pt" +:+ pretty i +:+ " name" := VStr n]> checkpoints_info))),
        S i).

Definition extract_checkpoints (url : string) (year : Z) : res (gmap string pyval) :=
  response ← requests_get url;
  root ← fromstring (text response);
  let checkpoints := findall2 "pts" "pt" root in
  let checkpoints_info : gmap string pyval := {["Year" := VInt year]} in
  fst <$> for_each checkpoint_round checkpoints (checkpoints_info, 0).

(** *** Main scraping loop: one runner page *)

Definition useless : list string := ["Animation 500m"; "KM BV SPORT"].

(** The dictionary comprehension from [idpt] to [n] over the checkpoint
    elements; a later element overwrites an earlier one with the same id. *)
Definition checkpoint_dict_of (checkpoints : list Element) : res (gmap string string) :=
  for_each (λ (d : gmap string string) cp,
              k ← subscript (attrib cp) "idpt";
              v ← subscript (attrib cp) "n";
              Ok (<[k := v]> d))
           checkpoints ∅.

(** The list comprehension of the [idpt] attributes. *)
Definition checkpoints_ids_of (checkpoints : list Element) : res (list string) :=
  for_each (λ (ids : list string) cp,
              k ← subscript (attrib cp) "idpt";
              Ok (ids ++ [k]))
           checkpoints [].

(** The variables of the split walk: the cursor [i] and the two lists
    being appended to. *)
Record walk : Type := mkWalk {
  cursor : nat;
  cptimes : list pyval;
  cpranks : list pyval
}.

(** The body of [for id in checkpoints_ids].  The second operand of
    [and] is evaluated only when the first holds; the [elif] repeats the
    first test. *)
Definition align_round (checkpoint_dict : gmap string string)
    (splits : list Element) (w : walk) (id : string) : res walk :=
  name ← subscript checkpoint_dict id;
  if bool_decide (name ∈ useless) then
    e ← item splits (cursor w);
    sid ← subscript (attrib e) "idpt";
    sname ← subscript checkpoint_dict sid;
    if bool_decide (sname ∈ useless) then
      Ok (mkWalk (S (cursor w)) (cptimes w) (cpranks w))
    else
      Ok w
  else
    e ← item splits (cursor w);
    sid ← subscript (attrib e) "idpt";
    if bool_decide (id = sid) then
      tps ← subscript (attrib e) "tps";
      let clt := default "-" (attrib e !! "clt") in
      Ok (mkWalk (S (cursor w)) (cptimes w ++ [VStr tps]) (cpranks w ++ [VStr clt]))
    else
      Ok (mkWalk (cursor w) (cptimes w ++ [VNaN]) (cpranks w ++ [VNaN])).

(** Checkpoint names, time splits and checkpoint rankings of one page:
    the two comprehensions and the walk. *)
Definition align (checkpoints splits : list Element) : res walk :=
  checkpoint_dict ← checkpoint_dict_of checkpoints;
  checkpoints_ids ← checkpoints_ids_of checkpoints;
  for_each (align_round checkpoint_dict splits) checkpoints_ids (mkWalk 0 [] []).

(** One dictionary of the achievements comprehension. *)
Definition achievement (race : Element) : res (gmap string (option string)) :=
  year ← subscript (attrib race) "year";
  name ← subscript (attrib race) "race";
  pos ← subscript (attrib race) "pos";
  tps ← subscript (attrib race) "tps";
  dist ← subscript (attrib race) "dist";
  Ok (<["Elevation Gain" := attrib race !! "deniv"]>
      (<["Distance" := Some dist]>
      (<["Time" := Some tps]>
      (<["Position" := Some pos]>
      (<["Race" := Some name]>
      (<["Year" := Some year]> ∅)))))).

Definition achievements_of (past_races : list Element)
  : res (list (gmap string (option string))) :=
  for_each (λ acc race, a ← achievement race; Ok (acc ++ [a])) past_races [].

(** The body of [for bib in bib_numbers] once the page is parsed: the
    dictionary appended to [data]. *)
Definition runner_row (year : Z) (bib : string) (root : Element)
  : res (gmap string pyval) :=
  (* Personal information *)
  identite ← attrib_of (find1 "identite" root);
  name ← subscript identite "nom";
  let first_name := py_get identite "prenom" in
  sex ← subscript identite "sx";
  category ← subscript identite "cat";
  let club := default "" (identite !! "club") in
  nationality ← subscript identite "nat";
  (* Rankings *)
  state ← attrib_of (find1 "state" root);
  global_rank ← subscript state "clt";
  let category_rank := py_get state "cltcat" in
  let gender_rank := py_get state "cltsx" in
  (* Checkpoint names, time splits and checkpoint rankings *)
  w ← align (findall2 "pts" "pt" root) (findall2 "pass" "e" root);
  (* Previous achievements *)
  achievements ← achievements_of (findall2 "palm" "e" root);
  (* UTMB Index if present *)
  let index := match find1 "palm" root with
               | Some palm => py_get (attrib palm) "cote"
               | None => VNone
               end in
  t0 ← item (cptimes w) 0; r0 ← item (cpranks w) 0;
  t1 ← item (cptimes w) 1; r1 ← item (cpranks w) 1;
  t2 ← item (cptimes w) 2; r2 ← item (cpranks w) 2;
  t3 ← item (cptimes w) 3; r3 ← item (cpranks w) 3;
  t4 ← item (cptimes w) 4; r4 ← item (cpranks w) 4;
  t5 ← item (cptimes w) 5; r5 ← item (cpranks w) 5;
  t6 ← item (cptimes w) 6; r6 ← item (cpranks w) 6;
  Ok (<["Past Achievements" := VList achievements]>
      (<["Pt6 rank" := r6]> (<["Pt6 time" := t6]>
      (<["Pt5 rank" := r5]> (<["Pt5 time" := t5]>
      (<["Pt4 rank" := r4]> (<["Pt4 time" := t4]>
      (<["Pt3 rank" := r3]> (<["Pt3 time" := t3]>
      (<["Pt2 rank" := r2]> (<["Pt2 time" := t2]>
      (<["Pt1 rank" := r1]> (<["Pt1 time" := t1]>
      (<["Pt0 rank" := r0]> (<["Pt0 time" := t0]>
      (<["UTMB Index" := index]>
      (<["Gender Rank" := gender_rank]>
      (<["Category Rank" := category_rank]>
      (<["Global Rank" := VStr global_rank]>
      (<["Nationality" := VStr nationality]>
      (<["Club" := VStr club]>
      (<["Category" := VStr category]>
      (<["Sex" := VStr sex]>
      (<["First Name" := first_name]>
      (<["Last Name" := VStr name]>
      (<["Bib Number" := VStr bib]>
      (<["Year" := VInt year]> ∅))))))))))))))))))))))))))).

(** *** Main scraping loop: one year, and all years *)

(** The body of [for bib in bib_numbers]; [data] is the accumulator. *)
Definition runner_round (year : Z) (base_runner_url : string)
    (data : list (gmap string pyval)) (bib : string)
  : res (list (gmap string pyval)) :=
  let runner_url := base_runner_url +:+ bib in
  response ← requests_get runner_url;
  _ ← raise_for_status response;
  root ← fromstring (text response);
  row ← runner_row year bib root;
  Ok (data ++ [row]).

(** The body of [for year in urls]. *)
Definition year_round (st : store) (entry : Z * (string * string)) : res store :=
  let '(year, (base_ranking_url, base_runner_url)) := entry in
  (* Extract all bib numbers *)
  '(printed, bib_numbers) ← extract_bib_numbers base_ranking_url;
  (* Extract checkpoint info *)
  first ← item bib_numbers 0;
  info ← extract_checkpoints (base_runner_url +:+ first) year;
  let checkpoint_data' := checkpoint_data st ++ [info] in
  (* Loop through each runner's page *)
  data' ← for_each (runner_round year base_runner_url) bib_numbers (data st);
  (* Saving the data after each year *)
  Ok (mkStore data' checkpoint_data' (stdout st ++ printed)
        (<["Saintelyon_checkpoints.csv" := checkpoint_data']>
         (<["Saintelyon_Results_new.csv" := data']> (files st)))).

(** *** 2017 edition loop *)

(** The dictionary appended for one element of the flat ranking table. *)
Definition legacy_row (runner : Element) : gmap string pyval :=
  <["Pt6 rank" := py_get (attrib runner) "class"]>
  (<["Pt6 time" := py_get (attrib runner) "tps"]>
  (<["UTMB Index" := py_get (attrib runner) "index"]>
  (<["Category Rank" := py_get (attrib runner) "classcat"]>
  (<["Global Rank" := py_get (attrib runner) "class"]>
  (<["Nationality" := py_get (attrib runner) "pays"]>
  (<["Club" := py_get (attrib runner) "club"]>
  (<["Category" := py_get (attrib runner) "cat"]>
  (<["Sex" := py_get (attrib runner) "sx"]>
  (<["First Name" := py_get (attrib runner) "prenom"]>
  (<["Last Name" := py_get (attrib runner) "nom"]>
  (<["Bib Number" := py_get (attrib runner) "doss"]>
  (<["Year" := VInt 2017]> ∅)))))))))))).

(** The loop over [root.findall(".//classement/c")]. *)
Definition legacy_loop (root : Element) (data : list (gmap string pyval))
  : list (gmap string pyval) :=
  foldl (λ data runner, data ++ [legacy_row runner]) data
        (findall2 "classement" "c" root).

(** The whole script. *)
Definition main : res store :=
  st ← for_each year_round urls initial_store;
  response ← requests_get url2017;
  root ← fromstring (content response);
  let data' := legacy_loop root (data st) in
  (* Final save *)
  Ok (mkStore data' (checkpoint_data st)
        (stdout st ++ ["Data extraction complete! CSV saved as 'Saintelyon_Results.csv' and 'Saintelyon_checkpoints.csv."])
        (<["Saintelyon_checkpoints.csv" := checkpoint_data st]>
         (<["Saintelyon_Results.csv" := data']> (files st)))).

End World.

(** ** Sample documents *)

Module Samples.

Definition attrs (l : list (string * string)) : gmap string string :=
  list_to_map l.

(** A [pt] element of the checkpoint list. *)
Definition pt (idpt n : string) : Element :=
  Elem "pt" (attrs [("idpt", idpt); ("n", n); ("km", "10"); ("a", "500"); ("d", "250")]) [].

(** An [e] element of the recorded splits. *)
Definition passage (idpt tps clt : string) : Element :=
  Elem "e" (attrs [("idpt", idpt); ("tps", tps); ("clt", clt)]) [].

(** The identity and ranking elements with the mandatory attributes only. *)
Definition identite_min : Element :=
  Elem "identite" (attrs [("nom", "DUPONT"); ("sx", "H"); ("cat", "SEH"); ("nat", "FRA")]) [].
Definition state_min : Element :=
  Elem "state" (attrs [("clt", "42")]) [].

(** A past race without elevation data. *)
Definition past_race : Element :=
  Elem "e" (attrs [("year", "2015"); ("race", "SaintExpress"); ("pos", "10");
                   ("tps", "04:10:00"); ("dist", "44")]) [].

Definition runner_page (pts splits palm : list Element) : Element :=
  Elem "d" ∅ [identite_min; state_min; Elem "pts" ∅ pts; Elem "pass" ∅ splits;
              Elem "palm" ∅ palm].

(** Three race checkpoints, a time at each. *)
Definition page_three : Element :=
  runner_page [pt "1" "A"; pt "2" "B"; pt "3" "C"]
              [passage "1" "01:00:00" "5"; passage "2" "02:00:00" "6";
               passage "3" "03:00:00" "7"] [].

(** Seven race checkpoints after an animation point; no time at the
    fourth and fifth. *)
Definition page_seven : Element :=
  runner_page [pt "0" "Animation 500m"; pt "1" "A"; pt "2" "B"; pt "3" "C";
               pt "4" "D"; pt "5" "E"; pt "6" "F"; pt "7" "G"]
              [passage "0" "00:02:00" "9"; passage "1" "01:00:00" "5";
               passage "2" "02:00:00" "6"; passage "3" "03:00:00" "7";
               passage "6" "06:00:00" "4"; passage "7" "07:00:00" "3"]
              [past_race].

(** The row expected for [page_seven] as bib 12 of 2022. *)
Definition row_seven : gmap string pyval :=
  list_to_map [
    ("Year", VInt 2022); ("Bib Number", VStr "12"); ("Last Name", VStr "DUPONT");
    ("First Name", VNone); ("Sex", VStr "H"); ("Category", VStr "SEH");
    ("Club", VStr ""); ("Nationality", VStr "FRA"); ("Global Rank", VStr "42");
    ("Category Rank", VNone); ("Gender Rank", VNone); ("UTMB Index", VNone);
    ("Pt0 time", VStr "01:00:00"); ("Pt0 rank", VStr "5");
    ("Pt1 time", VStr "02:00:00"); ("Pt1 rank", VStr "6");
    ("Pt2 time", VStr "03:00:00"); ("Pt2 rank", VStr "7");
    ("Pt3 time", VNaN); ("Pt3 rank", VNaN);
    ("Pt4 time", VNaN); ("Pt4 rank", VNaN);
    ("Pt5 time", VStr "06:00:00"); ("Pt5 rank", VStr "4");
    ("Pt6 time", VStr "07:00:00"); ("Pt6 rank", VStr "3");
    ("Past Achievements",
     VList [list_to_map [("Year", Some "2015"); ("Race", Some "SaintExpress");
                         ("Position", Some "10"); ("Time", Some "04:10:00");
                         ("Distance", Some "44"); ("Elevation Gain", None)]])].

(** A document without any checkpoint list. *)
Definition page_bare : Element := Elem "d" ∅ [identite_min; state_min].

(** The flat ranking table of the 2017 edition. *)
Definition winner_2017 : Element :=
  Elem "c" (attrs [("doss", "12"); ("nom", "DUPONT"); ("prenom", "Jean"); ("sx", "H");
                   ("cat", "SEH"); ("club", "ASL"); ("pays", "FRA"); ("class", "1");
                   ("classcat", "1"); ("index", "700"); ("tps", "05:40:12")]) [].
Definition second_2017 : Element :=
  Elem "c" (attrs [("doss", "7"); ("nom", "MARTIN"); ("class", "2");
                   ("tps", "05:51:03")]) [].
Definition table_2017 : Element :=
  Elem "d" ∅ [Elem "classement" ∅ [winner_2017; second_2017]].

(** The walk expected for [page_seven]. *)
Definition walk_seven : walk :=
  mkWalk 6
    [VStr "01:00:00"; VStr "02:00:00"; VStr "03:00:00"; VNaN; VNaN;
     VStr "06:00:00"; VStr "07:00:00"]
    [VStr "5"; VStr "6"; VStr "7"; VNaN; VNaN; VStr "4"; VStr "3"].

(** A checkpoint dictionary with two excluded names, and splits whose
    first entry belongs to an excluded checkpoint. *)
Definition exclusion_dict : gmap string string :=
  attrs [("0", "Animation 500m"); ("1", "A"); ("9", "KM BV SPORT")].
Definition exclusion_splits : list Element :=
  [passage "9" "00:01:00" "3"; passage "1" "01:00:00" "5"].

(** A world in which every page answers 404. *)
Definition get_404 (url : string) : res Response := Ok (mkResponse 404 "Not Found" "").

(** A world serving one fixed text with status 200. *)
Definition get_200 (body : string) (url : string) : res Response :=
  Ok (mkResponse 200 body body).

(** A parser stub returning one fixed tree. *)
Definition parse_as (root : Element) (s : string) : res Element := Ok root.

(** A ranking page with two runners, one listed twice. *)
Definition ranking_items : list (string * string) :=
  [("12", " nom='A'/><c "); ("7", " nom='B'/><c "); ("12", "/></d>")].

(** A table of decimal digits: the digits 0 to 9, the Arabic-Indic
    digits (U+0660 to U+0669), the Devanagari digits (U+0966 to U+096F),
    the fullwidth digits (U+FF10 to U+FF19) and the mathematical digits
    (U+1D7CE to U+1D7FF), each given by the bytes of its chunk. *)
Definition isdecimal (ch : string) : bool :=
  match map N_of_ascii (String.list_ascii_of_string ch) with
  | [b0] => (48 <=? b0)%N && (b0 <=? 57)%N
  | [217%N; b1] => (160 <=? b1)%N && (b1 <=? 169)%N
  | [224%N; 165%N; b2] => (166 <=? b2)%N && (b2 <=? 175)%N
  | [239%N; 188%N; b2] => (144 <=? b2)%N && (b2 <=? 153)%N
  | [240%N; 157%N; 159%N; b3] => (142 <=? b3)%N && (b3 <=? 191)%N
  | _ => false
  end.

(** The string of the given bytes. *)
Definition bytes (l : list N) : string :=
  foldr (λ n s, String (ascii_of_N n) s) EmptyString l.

(** The Arabic-Indic digits one and two, and the bib made of them. *)
Definition arabic_one : string := bytes [217; 161]%N.
Definition arabic_two : string := bytes [217; 162]%N.
Definition arabic_12 : string := arabic_one +:+ arabic_two.

(** A ranking page, spelled out: four runners, one listed twice, one
    with a bib in Arabic-Indic digits; other attributes with digits in
    quotes stand between the bib attributes. *)
Definition mixed_page : string :=
  "<d><c class=" +:+ String dquote ("1" +:+ String dquote
  (" doss=" +:+ String dquote ("12" +:+ String dquote
  (" nom='A'/><c class=" +:+ String dquote ("2" +:+ String dquote
  (" doss=" +:+ String dquote ("7" +:+ String dquote
  (" nom='B'/><c doss=" +:+ String dquote ("12" +:+ String dquote
  (" class=" +:+ String dquote ("3" +:+ String dquote
  ("/><c doss=" +:+ String dquote (arabic_12 +:+ String dquote
  "/></d>"))))))))))))).



(** A page with two [identite], [state] and [palm] elements, the first
    of each nested one level down and carrying the optional attributes. *)
Definition page_full : Element :=
  Elem "d" ∅ [
    Elem "fiche" ∅ [
      Elem "identite" (attrs [("nom", "DUPONT"); ("prenom", "Jean"); ("sx", "H");
                              ("cat", "SEH"); ("club", "ASL"); ("nat", "FRA")]) [];
      Elem "state" (attrs [("clt", "42"); ("cltcat", "7"); ("cltsx", "40")]) []];
    Elem "identite" (attrs [("nom", "MARTIN"); ("sx", "F"); ("cat", "V1F");
                            ("nat", "BEL")]) [];
    Elem "state" (attrs [("clt", "99")]) [];
    Elem "pts" ∅ [pt "1" "A"; pt "2" "B"; pt "3" "C"; pt "4" "D"; pt "5" "E";
                  pt "6" "F"; pt "7" "G"];
    Elem "pass" ∅ [passage "1" "01:00:00" "5"; passage "2" "02:00:00" "6";
                   passage "3" "03:00:00" "7"; passage "4" "04:00:00" "8";
                   passage "5" "05:00:00" "9"; passage "6" "06:00:00" "4";
                   passage "7" "07:00:00" "3"];
    Elem "palm" (attrs [("cote", "650")]) [];
    Elem "palm" (attrs [("cote", "1")]) []].

(** The row expected for [page_full] as bib 12 of 2022. *)
Definition row_full : gmap string pyval :=
  list_to_map [
    ("Year", VInt 2022); ("Bib Number", VStr "12"); ("Last Name", VStr "DUPONT");
    ("First Name", VStr "Jean"); ("Sex", VStr "H"); ("Category", VStr "SEH");
    ("Club", VStr "ASL"); ("Nationality", VStr "FRA"); ("Global Rank", VStr "42");
    ("Category Rank", VStr "7"); ("Gender Rank", VStr "40"); ("UTMB Index", VStr "650");
    ("Pt0 time", VStr "01:00:00"); ("Pt0 rank", VStr "5");
    ("Pt1 time", VStr "02:00:00"); ("Pt1 rank", VStr "6");
    ("Pt2 time", VStr "03:00:00"); ("Pt2 rank", VStr "7");
    ("Pt3 time", VStr "04:00:00"); ("Pt3 rank", VStr "8");
    ("Pt4 time", VStr "05:00:00"); ("Pt4 rank", VStr "9");
    ("Pt5 time", VStr "06:00:00"); ("Pt5 rank", VStr "4");
    ("Pt6 time", VStr "07:00:00"); ("Pt6 rank", VStr "3");
    ("Past Achievements", VList [])].

End Samples.

(** ** Ranking pages as the bib extractor sees them *)

(** The characters 0 to 9, as [pretty] prints numbers, and the strings
    made of them. *)
Definition is_ascii_digit (c : ascii) : bool :=
  Ascii.leb "0"%char c && Ascii.leb c "9"%char.
Fixpoint ascii_digits (s : string) : bool :=
  match s with
  | EmptyString => true
  | String c s' => is_ascii_digit c && ascii_digits s'
  end.

(** [is_char ch]: [ch] is the chunk of one character. *)
Fixpoint all_cont (s : string) : bool :=
  match s with
  | EmptyString => true
  | String b s' => is_cont b && all_cont s'
  end.
Definition is_char (ch : string) : bool :=
  match ch with
  | EmptyString => false
  | String b0 rest => bool_decide (char_len b0 = S (String.length rest)) && all_cont rest
  end.

(** The text made of the given characters. *)
Definition join (chars : list string) : string := foldr String.append EmptyString chars.

(** [digit_run isdecimal b]: [b] is one or more characters, each a
    decimal digit of the table. *)
Definition digit_run (isdecimal : string → bool) (b : string) : Prop :=
  ∃ chars, chars ≠ []
           ∧ Forall (λ ch, is_char ch = true ∧ isdecimal ch = true) chars
           ∧ b = join chars.


(** [occurs p s]: [p] is a substring of [s]. *)
Fixpoint occurs (p s : string) : bool :=
  match s with
  | EmptyString => bool_decide (strip_prefix p s ≠ None)
  | String _ s' => bool_decide (strip_prefix p s ≠ None) || occurs p s'
  end.

(** A run of bib attributes, each followed by arbitrary text [gap]. *)
Fixpoint bib_attributes (items : list (string * string)) : string :=
  match items with
  | [] => EmptyString
  | (bib, gap) :: items' =>
      doss_open +:+ bib +:+ String dquote (gap +:+ bib_attributes items')
  end.

(** The columns of a row of the main loop, and of a 2017 row. *)
Definition row_columns : gset string :=
  list_to_set ["Year"; "Bib Number"; "Last Name"; "First Name"; "Sex"; "Category";
               "Club"; "Nationality"; "Global Rank"; "Category Rank"; "Gender Rank";
               "UTMB Index"; "Pt0 time"; "Pt0 rank"; "Pt1 time"; "Pt1 rank";
               "Pt2 time"; "Pt2 rank"; "Pt3 time"; "Pt3 rank"; "Pt4 time"; "Pt4 rank";
               "Pt5 time"; "Pt5 rank"; "Pt6 time"; "Pt6 rank"; "Past Achievements"].

Definition legacy_columns : gset string :=
  list_to_set ["Year"; "Bib Number"; "Last Name"; "First Name"; "Sex"; "Category";
               "Club"; "Nationality"; "Global Rank"; "Category Rank"; "UTMB Index";
               "Pt6 time"; "Pt6 rank"].

(** [first_tagged t root e]: [e] is the first element below [root], in
    document order, whose tag is [t]. *)
Definition first_tagged (t : string) (root e : Element) : Prop :=
  ∃ before after,
    descendants root = before ++ e :: after
    ∧ tag e = t
    ∧ Forall (λ x, tag x ≠ t) before.

(** [none_tagged t root]: no element below [root] has tag [t]. *)
Definition none_tagged (t : string) (root : Element) : Prop :=
  Forall (λ x, tag x ≠ t) (descendants root).

(** The column names of slot [j]. *)
Definition time_column (j : nat) : string := "Pt" +:+ pretty j +:+ " time".
Definition rank_column (j : nat) : string := "Pt" +:+ pretty j +:+ " rank".

(** [e.attrib.get("clt", "-")] as stored in [cpranks]. *)
Definition rank_of (e : Element) : pyval := VStr (default "-" (attrib e !! "clt")).

(** ** Checkpoints paired with their recorded splits *)

(** The [idpt] and [n] attributes of an element (empty when missing). *)
Definition idpt_of (e : Element) : string := default "" (attrib e !! "idpt").
Definition name_of (pt : Element) : string := default "" (attrib pt !! "n").

(** A race checkpoint: its name is not in the exclusion list. *)
Definition kept (pt : Element) : bool := bool_decide (name_of pt ∉ useless).

(** A page seen as its checkpoints in document order, each with the
    split recorded for it, if any: the checkpoint list is [map fst plan]
    and the recorded splits are [omap snd plan]. *)
Definition entry_ok (p : Element * option Element) : Prop :=
  is_Some (attrib p.1 !! "idpt") ∧ is_Some (attrib p.1 !! "n")
  ∧ match p.2 with
    | Some e => attrib e !! "idpt" = attrib p.1 !! "idpt"
                ∧ (kept p.1 = true → is_Some (attrib e !! "tps"))
    | None => True
    end.

(** The first checkpoint of the plan that has a split. *)
Fixpoint next_recorded (plan : list (Element * option Element))
  : option (Element * Element) :=
  match plan with
  | [] => None
  | (pt, Some e) :: _ => Some (pt, e)
  | (_, None) :: plan' => next_recorded plan'
  end.

(** Every checkpoint without a split is followed by a recorded one, and
    an excluded checkpoint without a split by a recorded race checkpoint. *)
Fixpoint gaps_closed (plan : list (Element * option Element)) : bool :=
  match plan with
  | [] => true
  | (_, Some _) :: plan' => gaps_closed plan'
  | (pt, None) :: plan' =>
      match next_recorded plan' with
      | Some (pt', _) => (kept pt || kept pt') && gaps_closed plan'
      | None => false
      end
  end.

(** The time and the rank due at each race checkpoint of the plan. *)
Definition time_due (r : option Element) : pyval :=
  match r with
  | Some e => VStr (default "" (attrib e !! "tps"))
  | None => VNaN
  end.
Definition rank_due (r : option Element) : pyval :=
  match r with
  | Some e => rank_of e
  | None => VNaN
  end.
Definition times_due (plan : list (Element * option Element)) : list pyval :=
  map (time_due ∘ snd) (List.filter (kept ∘ fst) plan).
Definition ranks_due (plan : list (Element * option Element)) : list pyval :=
  map (rank_due ∘ snd) (List.filter (kept ∘ fst) plan).

(** Every time stored by the walk is the marker or the [tps] of a
    recorded split, every rank the marker or the rank of a split. *)
Definition from_splits (splits : list Element) (w : walk) : Prop :=
  cursor w ≤ length splits
  ∧ Forall (λ v, v = VNaN ∨ ∃ e tps, e ∈ splits ∧ attrib e !! "tps" = Some tps
                                     ∧ v = VStr tps) (cptimes w)
  ∧ Forall (λ v, v = VNaN ∨ ∃ e, e ∈ splits ∧ v = rank_of e) (cpranks w).

(** What the extractor needs of a checkpoint element: a name, and for a
    race checkpoint the three other attributes. *)
Definition checkpoint_ok (pt : Element) : Prop :=
  is_Some (attrib pt !! "n")
  ∧ (kept pt = true →
     is_Some (attrib pt !! "km") ∧ is_Some (attrib pt !! "a") ∧ is_Some (attrib pt !! "d")).

(** A row of the given year and bib. *)
Definition row_of (year : Z) (bib : string) (row : gmap string pyval) : Prop :=
  row !! "Year" = Some (VInt year) ∧ row !! "Bib Number" = Some (VStr bib).

(** The key of a field of checkpoint [i] in the checkpoint record. *)
Definition info_column (i : nat) (field : string) : string :=
  "Pt" +:+ pretty i +:+ field.
Definition info_fields : list string :=
  [" name"; " distance"; " height"; " total elevation"].

(** Slot [j] of a checkpoint record holds the four fields of [pt]. *)
Definition slot_filled (info : gmap string pyval) (j : nat) (pt : Element) : Prop :=
  info !! info_column j " name" = VStr <$> attrib pt !! "n"
  ∧ info !! info_column j " distance" = VStr <$> attrib pt !! "km"
  ∧ info !! info_column j " height" = VStr <$> attrib pt !! "a"
  ∧ info !! info_column j " total elevation" = VStr <$> attrib pt !! "d".

Module Scenarios.

(** The seven-checkpoint sample page as a plan. *)
Definition plan_seven : list (Element * option Element) :=
  [(Samples.pt "0" "Animation 500m", Some (Samples.passage "0" "00:02:00" "9"));
   (Samples.pt "1" "A", Some (Samples.passage "1" "01:00:00" "5"));
   (Samples.pt "2" "B", Some (Samples.passage "2" "02:00:00" "6"));
   (Samples.pt "3" "C", Some (Samples.passage "3" "03:00:00" "7"));
   (Samples.pt "4" "D", None);
   (Samples.pt "5" "E", None);
   (Samples.pt "6" "F", Some (Samples.passage "6" "06:00:00" "4"));
   (Samples.pt "7" "G", Some (Samples.passage "7" "07:00:00" "3"))].

(** A world that serves every ranking page with three bib attributes,
    every runner page as the seven-checkpoint sample, and the 2017 table. *)
Definition ranking_page : string := "<d><c " +:+ bib_attributes Samples.ranking_items.
Definition ranking_urls : list string := map (λ entry, entry.2.1) urls.
Definition get (url : string) : res Response :=
  if decide (url = url2017) then Ok (mkResponse 200 "" "2017")
  else if bool_decide (url ∈ ranking_urls)
       then Ok (mkResponse 200 ranking_page ranking_page)
       else Ok (mkResponse 200 "runner" "runner").
Definition parse (s : string) : res Element :=
  if decide (s = "2017") then Ok Samples.table_2017 else Ok Samples.page_seven.

(** The same world, but the page of bib 7 of 2022 is gone. *)
Definition runner_url_2022 : string :=
  "https://livetrail.net/histo/saintelyon_2022/coureur.php?rech=".
Definition ranking_url_2022 : string :=
  "https://livetrail.net/histo/saintelyon_2022/classement.php?course=78km&cat=scratch".
Definition get_dead (url : string) : res Response :=
  if decide (url = runner_url_2022 +:+ "7") then Ok (mkResponse 404 "Not Found" "")
  else get url.

(** The stores reached in that world after the year 2022 alone, and at
    the end of the script. *)
Definition after_2022 : store :=
  match year_round Samples.isdecimal get parse initial_store
          (2022%Z, (ranking_url_2022, runner_url_2022)) with
  | Ok st => st
  | Raise _ => initial_store
  end.
Definition final_store : store :=
  match main Samples.isdecimal get parse with
  | Ok st => st
  | Raise _ => initial_store
  end.

End Scenarios.

(** A past race needs its five mandatory attributes and nothing else. *)
Definition past_race_ok (race : Element) : Prop :=
  is_Some (attrib race !! "year") ∧ is_Some (attrib race !! "race")
  ∧ is_Some (attrib race !! "pos") ∧ is_Some (attrib race !! "tps")
  ∧ is_Some (attrib race !! "dist").


(** The first attribute the extractor looks up and does not find on a
    checkpoint element, if any: the name, and for a race checkpoint the
    distance, the height and the elevation. *)
Definition missing_attribute (pt : Element) : option string :=
  match attrib pt !! "n" with
  | None => Some "n"
  | Some _ =>
      if kept pt then
        match attrib pt !! "km", attrib pt !! "a", attrib pt !! "d" with
        | None, _, _ => Some "km"
        | Some _, None, _ => Some "a"
        | Some _, Some _, None => Some "d"
        | Some _, Some _, Some _ => None
        end
      else None
  end.

(** * Properties *)

(** ** The error monad *)

Lemma bind_Ok {A B} (m : res A) (f : A → res B) a :
  m = Ok a → m ≫= f = f a.
Proof. by intros ->. Qed.

Lemma bind_Ok_inv {A B} (m : res A) (f : A → res B) b :
  m ≫= f = Ok b → ∃ a, m = Ok a ∧ f a = Ok b.
Proof. destruct m as [a|e]; [by exists a | done]. Qed.

Lemma bind_Raise {A B} (m : res A) (f : A → res B) e :
  m = Raise e → m ≫= f = Raise e.
Proof. by intros ->. Qed.

Lemma subscript_Some {V} (d : gmap string V) k v :
  d !! k = Some v → subscript d k = Ok v.
Proof. unfold subscript. by intros ->. Qed.

Lemma subscript_Ok_inv {V} (d : gmap string V) k v :
  subscript d k = Ok v → d !! k = Some v.
Proof. unfold subscript. destruct (d !! k); naive_solver. Qed.

Lemma item_Some {A} (l : list A) i x : l !! i = Some x → item l i = Ok x.
Proof. unfold item. by intros ->. Qed.

Lemma item_Ok_inv {A} (l : list A) i x : item l i = Ok x → l !! i = Some x.
Proof. unfold item. destruct (l !! i); naive_solver. Qed.

Lemma item_past_end {A} (l : list A) i : length l ≤ i → item l i = Raise IndexError.
Proof. intros H. unfold item. by rewrite lookup_ge_None_2. Qed.

(** Peel the binds of a successful computation, one at a time. *)
Ltac peel H :=
  repeat match type of H with
  | _ ≫= _ = Ok _ =>
      let a := fresh "a" in let Ha := fresh "Ha" in
      apply bind_Ok_inv in H as (a & Ha & H); cbv beta zeta in H
  end.

Lemma not_Ok_Raise {A} (m : res A) : (∀ a, m ≠ Ok a) → ∃ e, m = Raise e.
Proof. destruct m as [a|e]; [intros H; by destruct (H a) | eauto]. Qed.

(** ** The split walk *)

(** Past the end of the recorded splits every round raises: both branches
    index [splits] at the cursor before anything else. *)
Lemma align_round_past_end checkpoint_dict splits w id :
  is_Some (checkpoint_dict !! id) →
  length splits ≤ cursor w →
  align_round checkpoint_dict splits w id = Raise IndexError.
Proof.
  intros [name Hname] Hlen. unfold align_round.
  rewrite (subscript_Some _ _ _ Hname). simpl.
  rewrite (item_past_end _ _ Hlen). by case_bool_decide.
Qed.

(** The four ways a round can go when the split at the cursor exists. *)
Lemma align_round_hit checkpoint_dict splits w id name e tps :
  checkpoint_dict !! id = Some name → name ∉ useless →
  splits !! cursor w = Some e →
  attrib e !! "idpt" = Some id → attrib e !! "tps" = Some tps →
  align_round checkpoint_dict splits w id
  = Ok (mkWalk (S (cursor w)) (cptimes w ++ [VStr tps]) (cpranks w ++ [rank_of e])).
Proof.
  intros Hname Hu He Hid Htps. unfold align_round.
  rewrite (subscript_Some _ _ _ Hname). simpl.
  rewrite bool_decide_eq_false_2 by done.
  rewrite (item_Some _ _ _ He). simpl.
  rewrite (subscript_Some _ _ _ Hid). simpl.
  rewrite bool_decide_eq_true_2 by done.
  by rewrite (subscript_Some _ _ _ Htps).
Qed.

Lemma align_round_miss checkpoint_dict splits w id name e sid :
  checkpoint_dict !! id = Some name → name ∉ useless →
  splits !! cursor w = Some e →
  attrib e !! "idpt" = Some sid → id ≠ sid →
  align_round checkpoint_dict splits w id
  = Ok (mkWalk (cursor w) (cptimes w ++ [VNaN]) (cpranks w ++ [VNaN])).
Proof.
  intros Hname Hu He Hid Hne. unfold align_round.
  rewrite (subscript_Some _ _ _ Hname). simpl.
  rewrite bool_decide_eq_false_2 by done.
  rewrite (item_Some _ _ _ He). simpl.
  rewrite (subscript_Some _ _ _ Hid). simpl.
  by rewrite bool_decide_eq_false_2 by done.
Qed.

Lemma align_round_useless checkpoint_dict splits w id name e sid sname :
  checkpoint_dict !! id = Some name → name ∈ useless →
  splits !! cursor w = Some e →
  attrib e !! "idpt" = Some sid → checkpoint_dict !! sid = Some sname →
  align_round checkpoint_dict splits w id
  = Ok (if bool_decide (sname ∈ useless)
        then mkWalk (S (cursor w)) (cptimes w) (cpranks w)
        else w).
Proof.
  intros Hname Hu He Hid Hsname. unfold align_round.
  rewrite (subscript_Some _ _ _ Hname). simpl.
  rewrite bool_decide_eq_true_2 by done.
  rewrite (item_Some _ _ _ He). simpl.
  rewrite (subscript_Some _ _ _ Hid). simpl.
  rewrite (subscript_Some _ _ _ Hsname). simpl.
  by case_bool_decide.
Qed.

(** C1: with checkpoint ids A, B, C and recorded splits for A and C only,
    the walk yields the times [t1; NaN; t3] (and the ranks likewise): the
    time of C sits at index 2 and index 1 holds the marker; the result is
    not the positional pairing [t1; t3; NaN]. *)
Theorem align_skipped_checkpoint (pA pB pC eA eC : Element)
    (A B C nA nB nC t1 t3 : string) :
  attrib pA !! "idpt" = Some A → attrib pA !! "n" = Some nA →
  attrib pB !! "idpt" = Some B → attrib pB !! "n" = Some nB →
  attrib pC !! "idpt" = Some C → attrib pC !! "n" = Some nC →
  nA ∉ useless → nB ∉ useless → nC ∉ useless →
  B ≠ C →
  attrib eA !! "idpt" = Some A → attrib eA !! "tps" = Some t1 →
  attrib eC !! "idpt" = Some C → attrib eC !! "tps" = Some t3 →
  ∃ w, align [pA; pB; pC] [eA; eC] = Ok w
       ∧ cptimes w = [VStr t1; VNaN; VStr t3]
       ∧ cpranks w = [rank_of eA; VNaN; rank_of eC]
       ∧ cptimes w ≠ [VStr t1; VStr t3; VNaN].
Proof.
  intros HA HnA HB HnB HC HnC UA UB UC HBC HeA Ht1 HeC Ht3.
  assert (Hdict : ∀ k, k ∈ [A; B; C] →
            ∃ n, (<[C:=nC]> (<[B:=nB]> (<[A:=nA]> (∅ : gmap string string)))) !! k = Some n
                 ∧ n ∉ useless).
  { intros k Hk. rewrite !lookup_insert.
    destruct (decide (C = k)); [eauto|].
    destruct (decide (B = k)); [eauto|].
    destruct (decide (A = k)); [eauto|].
    rewrite !elem_of_cons, elem_of_nil in Hk.
    destruct Hk as [->|[->|[->|[]]]]; congruence. }
  destruct (Hdict A) as (mA & HmA & UmA); [set_solver|].
  destruct (Hdict B) as (mB & HmB & UmB); [set_solver|].
  destruct (Hdict C) as (mC & HmC & UmC); [set_solver|].
  eexists. split; [|split; [|split]].
  - unfold align, checkpoint_dict_of, checkpoints_ids_of. simpl.
    rewrite !(subscript_Some _ _ _ HA), !(subscript_Some _ _ _ HnA). simpl.
    rewrite !(subscript_Some _ _ _ HB), !(subscript_Some _ _ _ HnB). simpl.
    rewrite !(subscript_Some _ _ _ HC), !(subscript_Some _ _ _ HnC). simpl.
    erewrite (align_round_hit _ _ _ A) by done. simpl.
    erewrite (align_round_miss _ _ _ B) by done. simpl.
    erewrite (align_round_hit _ _ _ C) by done. simpl.
    reflexivity.
  - done.
  - done.
  - simpl. congruence.
Qed.

Lemma align_skipped_checkpoint_witness :
  ∃ w, align [Samples.pt "1" "A"; Samples.pt "2" "B"; Samples.pt "3" "C"]
             [Samples.passage "1" "01:00:00" "5"; Samples.passage "3" "03:00:00" "7"] = Ok w
       ∧ cptimes w = [VStr "01:00:00"; VNaN; VStr "03:00:00"]
       ∧ cpranks w = [VStr "5"; VNaN; VStr "7"]
       ∧ cptimes w ≠ [VStr "01:00:00"; VStr "03:00:00"; VNaN].
Proof.
  apply (align_skipped_checkpoint
           (Samples.pt "1" "A") (Samples.pt "2" "B") (Samples.pt "3" "C")
           (Samples.passage "1" "01:00:00" "5") (Samples.passage "3" "03:00:00" "7")
           "1" "2" "3" "A" "B" "C" "01:00:00" "03:00:00");
    try reflexivity; compute_done.
Defined.

(** C2: a runner whose recorded splits stop before the last checkpoint
    (here: a time at the first of three checkpoints only; no time at
    all; a time at the first race checkpoint after an animation point)
    makes the walk index [splits] past its end: it raises [IndexError]
    where a marker was due for each remaining checkpoint. *)
Theorem align_splits_end_early :
  align [Samples.pt "1" "A"; Samples.pt "2" "B"; Samples.pt "3" "C"]
        [Samples.passage "1" "01:00:00" "5"] = Raise IndexError
  ∧ align [Samples.pt "1" "A"; Samples.pt "2" "B"; Samples.pt "3" "C"] []
    = Raise IndexError
  ∧ align [Samples.pt "0" "Animation 500m"; Samples.pt "1" "A"; Samples.pt "2" "B"]
          [Samples.passage "1" "01:00:00" "5"] = Raise IndexError.
Proof. repeat split; vm_compute; reflexivity. Qed.

(** C6: when the name of the current checkpoint is in the exclusion list
    and the split at the cursor belongs to a checkpoint named [sname]: if
    [sname] is excluded too the cursor advances by one, otherwise the
    walk is left as it was; nothing is appended in either case. *)
Theorem align_round_excluded checkpoint_dict splits w id name e sid sname :
  checkpoint_dict !! id = Some name → name ∈ useless →
  splits !! cursor w = Some e →
  attrib e !! "idpt" = Some sid → checkpoint_dict !! sid = Some sname →
  (sname ∈ useless →
     align_round checkpoint_dict splits w id
     = Ok (mkWalk (S (cursor w)) (cptimes w) (cpranks w)))
  ∧ (sname ∉ useless → align_round checkpoint_dict splits w id = Ok w).
Proof.
  intros Hname Hu He Hid Hsname.
  rewrite (align_round_useless _ _ _ _ _ _ _ _ Hname Hu He Hid Hsname).
  split; intros H.
  - by rewrite bool_decide_eq_true_2.
  - by rewrite bool_decide_eq_false_2.
Qed.

Lemma align_round_excluded_witness :
  align_round Samples.exclusion_dict Samples.exclusion_splits (mkWalk 0 [] []) "0"
  = Ok (mkWalk 1 [] [])
  ∧ align_round Samples.exclusion_dict Samples.exclusion_splits
      (mkWalk 1 [VNaN] [VNaN]) "0"
    = Ok (mkWalk 1 [VNaN] [VNaN]).
Proof.
  split.
  - apply (align_round_excluded Samples.exclusion_dict Samples.exclusion_splits
             (mkWalk 0 [] []) "0" "Animation 500m"
             (Samples.passage "9" "00:01:00" "3") "9" "KM BV SPORT");
      try reflexivity; compute_done.
  - apply (align_round_excluded Samples.exclusion_dict Samples.exclusion_splits
             (mkWalk 1 [VNaN] [VNaN]) "0" "Animation 500m"
             (Samples.passage "1" "01:00:00" "5") "1" "A");
      try reflexivity; compute_done.
Defined.

(** ** The row of one runner *)

Lemma time_column_values :
  map time_column [0; 1; 2; 3; 4; 5; 6]
  = ["Pt0 time"; "Pt1 time"; "Pt2 time"; "Pt3 time"; "Pt4 time"; "Pt5 time"; "Pt6 time"].
Proof. reflexivity. Qed.

Lemma rank_column_values :
  map rank_column [0; 1; 2; 3; 4; 5; 6]
  = ["Pt0 rank"; "Pt1 rank"; "Pt2 rank"; "Pt3 rank"; "Pt4 rank"; "Pt5 rank"; "Pt6 rank"].
Proof. reflexivity. Qed.

(** A row is built only from a walk with at least seven entries, and its
    slot columns are the first seven of them. *)
Lemma Ok_inj {A} (a b : A) : Ok a = Ok b → a = b.
Proof. congruence. Qed.

Lemma runner_row_Ok_inv year bib root row :
  runner_row year bib root = Ok row →
  ∃ w, align (findall2 "pts" "pt" root) (findall2 "pass" "e" root) = Ok w
       ∧ 7 ≤ length (cptimes w) ∧ 7 ≤ length (cpranks w)
       ∧ dom row = row_columns
       ∧ ∀ j, j < 7 → row !! time_column j = cptimes w !! j
                      ∧ row !! rank_column j = cpranks w !! j.
Proof.
  intros H. unfold runner_row in H. peel H.
  apply Ok_inj in H. subst row.
  repeat match goal with
  | Hi : item _ _ = Ok _ |- _ => apply item_Ok_inv in Hi
  end.
  match goal with Hal : align _ _ = Ok ?w |- _ => exists w; split; [exact Hal|] end.
  (split; [eapply lookup_lt_Some; eassumption|]).
  split; [eapply lookup_lt_Some; eassumption|].
  split.
  - rewrite !dom_insert_L, dom_empty_L. compute_done.
  - intros j Hj.
    do 7 (destruct j as [|j]; [split; symmetry; (etrans; [eassumption|reflexivity])|]).
    lia.
Qed.

(** A walk with fewer than seven entries yields no row: the dictionary
    literal indexes both lists at 0 to 6. *)
Lemma runner_row_short_walk year bib root w :
  align (findall2 "pts" "pt" root) (findall2 "pass" "e" root) = Ok w →
  length (cptimes w) < 7 →
  ∃ e, runner_row year bib root = Raise e.
Proof.
  intros Hw Hlen. apply not_Ok_Raise. intros row Hrow.
  apply runner_row_Ok_inv in Hrow as (w' & Hw' & Hlen' & _).
  rewrite Hw in Hw'. apply Ok_inj in Hw'. subst w'. lia.
Qed.

(** The seven-checkpoint sample yields the expected row, with exactly the
    columns of the results table. *)
Example runner_row_page_seven :
  runner_row 2022 "12" Samples.page_seven = Ok Samples.row_seven
  ∧ align (findall2 "pts" "pt" Samples.page_seven)
          (findall2 "pass" "e" Samples.page_seven) = Ok Samples.walk_seven
  ∧ dom Samples.row_seven = row_columns.
Proof.
  assert (Hrow : runner_row 2022 "12" Samples.page_seven = Ok Samples.row_seven)
    by compute_done.
  split; [exact Hrow|]. split; [vm_compute; reflexivity|].
  by destruct (runner_row_Ok_inv _ _ _ _ Hrow) as (_ & _ & _ & _ & Hdom & _).
Qed.

(** C3: a page with three race checkpoints and a time at each aligns to
    three entries; building the row then raises [IndexError] at
    [cptimes[3]], where seven slot pairs with the marker in slots 3 to 6
    were due. *)
Theorem runner_row_three_checkpoints :
  align (findall2 "pts" "pt" Samples.page_three)
        (findall2 "pass" "e" Samples.page_three)
  = Ok (mkWalk 3 [VStr "01:00:00"; VStr "02:00:00"; VStr "03:00:00"]
               [VStr "5"; VStr "6"; VStr "7"])
  ∧ runner_row 2022 "12" Samples.page_three = Raise IndexError.
Proof. split; vm_compute; reflexivity. Qed.

(** ** Loops *)

Lemma for_each_app {S A} (body : S → A → res S) l1 l2 s :
  for_each body (l1 ++ l2) s = for_each body l1 s ≫= for_each body l2.
Proof.
  revert s. induction l1 as [|x l1 IH]; intros s; simpl; [done|].
  destruct (body s x) as [s'|e]; simpl; [apply IH | done].
Qed.

Lemma for_each_cons_Raise {S A} (body : S → A → res S) x l s e :
  body s x = Raise e → for_each body (x :: l) s = Raise e.
Proof. simpl. by intros ->. Qed.

Lemma for_each_invariant {S A} (P : S → Prop) (body : S → A → res S) l s s' :
  (∀ s x s', P s → body s x = Ok s' → P s') →
  P s → for_each body l s = Ok s' → P s'.
Proof.
  intros Hstep. revert s. induction l as [|x l IH]; intros s Hs H; simpl in H.
  - apply Ok_inj in H. by subst.
  - apply bind_Ok_inv in H as (s1 & H1 & H). eauto.
Qed.

(** ** One year of the main loop *)

(** C4: when the ranking page of a year yields no bib number, the body of
    the year loop raises [IndexError] at [bib_numbers[0]], and the loop
    over the years stops there instead of going on to the next year. *)
Theorem year_round_no_bib_numbers
    (isdecimal : string → bool) (requests_get : string → res Response) (fromstring : string → res Element)
    (st0 st : store) (before after : list (Z * (string * string)))
    (year : Z) (ranking_url runner_url : string) (printed : list string) :
  for_each (year_round isdecimal requests_get fromstring) before st0 = Ok st →
  extract_bib_numbers isdecimal requests_get ranking_url = Ok (printed, []) →
  year_round isdecimal requests_get fromstring st (year, (ranking_url, runner_url))
  = Raise IndexError
  ∧ for_each (year_round isdecimal requests_get fromstring)
      (before ++ (year, (ranking_url, runner_url)) :: after) st0
    = Raise IndexError.
Proof.
  intros Hbefore Hbibs.
  assert (Hyear : year_round isdecimal requests_get fromstring st (year, (ranking_url, runner_url))
                  = Raise IndexError).
  { unfold year_round. by rewrite Hbibs. }
  split; [exact Hyear|].
  rewrite for_each_app, (bind_Ok _ _ _ Hbefore).
  by apply for_each_cons_Raise.
Qed.

Lemma year_round_no_bib_numbers_witness :
  year_round Samples.isdecimal Samples.get_404 (Samples.parse_as Samples.page_seven) initial_store
    (2024%Z, ("https://saintelyon.livetrail.net/classement.php?course=82km&cat=scratch",
              "https://saintelyon.livetrail.net/coureur.php?rech="))
  = Raise IndexError
  ∧ for_each (year_round Samples.isdecimal Samples.get_404 (Samples.parse_as Samples.page_seven))
      urls initial_store
    = Raise IndexError.
Proof.
  apply (year_round_no_bib_numbers Samples.isdecimal Samples.get_404 (Samples.parse_as Samples.page_seven)
           initial_store initial_store [] (tail urls) 2024
           "https://saintelyon.livetrail.net/classement.php?course=82km&cat=scratch"
           "https://saintelyon.livetrail.net/coureur.php?rech="
           ["Failed to retrieve the page"]);
    reflexivity.
Defined.

(** The whole script stops in its first year when the ranking pages are
    not served. *)
Example main_without_ranking_pages :
  main Samples.isdecimal Samples.get_404 (Samples.parse_as Samples.page_seven) = Raise IndexError.
Proof. reflexivity. Qed.

(** One year in which the ranking page lists three bibs and every runner
    page parses to the seven-checkpoint sample: three rows and one
    checkpoint record are added, nothing is printed. *)
Example year_round_three_runners :
  (λ st, (length (data st), length (checkpoint_data st), stdout st,
          data st !! 1 ≫= (.!! "Bib Number")))
  <$> year_round Samples.isdecimal (Samples.get_200 ("<d><c " +:+ bib_attributes Samples.ranking_items))
        (Samples.parse_as Samples.page_seven) initial_store
        (2022%Z, ("https://livetrail.net/histo/saintelyon_2022/classement.php?course=78km&cat=scratch",
                  "https://livetrail.net/histo/saintelyon_2022/coureur.php?rech="))
  = Ok (3, 1, [], Some (VStr "7")).
Proof. vm_compute. reflexivity. Qed.

(** ** The checkpoint extractor *)

(** On the seven-checkpoint sample the animation point is left out and
    the race checkpoints are numbered from 0 to 6. *)
Example extract_checkpoints_seven :
  (λ info : gmap string pyval,
     (info !! "Year", info !! "Pt0 name", info !! "Pt6 name", info !! "Pt6 distance",
      info !! "Pt7 name", size info))
  <$> extract_checkpoints (Samples.get_200 "<d/>") (Samples.parse_as Samples.page_seven)
        "https://livetrail.net/histo/saintelyon_2022/coureur.php?rech=12" 2022
  = Ok (Some (VInt 2022), Some (VStr "A"), Some (VStr "G"), Some (VStr "10"), None, 29).
Proof. vm_compute. reflexivity. Qed.

(** C7, as the code has it: on a parsed document without any [pts/pt]
    element the extractor signals nothing and returns the dictionary
    that holds the year only. *)
Theorem extract_checkpoints_no_checkpoint_list
    (requests_get : string → res Response) (fromstring : string → res Element)
    (url : string) (year : Z) (response : Response) (root : Element) :
  requests_get url = Ok response →
  fromstring (text response) = Ok root →
  findall2 "pts" "pt" root = [] →
  extract_checkpoints requests_get fromstring url year = Ok {["Year" := VInt year]}.
Proof.
  intros Hget Hparse Hnone. unfold extract_checkpoints.
  rewrite Hget. simpl. rewrite Hparse. simpl. by rewrite Hnone.
Qed.

Lemma extract_checkpoints_no_checkpoint_list_witness :
  extract_checkpoints (Samples.get_200 "<d/>") (Samples.parse_as Samples.page_bare)
    "https://livetrail.net/histo/saintelyon_2022/coureur.php?rech=12" 2022
  = Ok {["Year" := VInt 2022]}.
Proof.
  apply (extract_checkpoints_no_checkpoint_list _ _ _ _
           (mkResponse 200 "<d/>" "<d/>") Samples.page_bare);
    reflexivity.
Defined.

(** C7 as stated fails: a document without the checkpoint list is not
    rejected; the extractor returns normally. *)
Lemma extract_checkpoints_accepts_bare_page :
  findall2 "pts" "pt" Samples.page_bare = []
  ∧ ¬ ∃ e, extract_checkpoints (Samples.get_200 "<d/>")
             (Samples.parse_as Samples.page_bare)
             "https://livetrail.net/histo/saintelyon_2022/coureur.php?rech=12" 2022
           = Raise e.
Proof. split; [reflexivity|]. intros [e H]. vm_compute in H. discriminate. Qed.

(** ** The bib extractor *)

Lemma append_String (c : ascii) (s1 s2 : string) :
  String c s1 +:+ s2 = String c (s1 +:+ s2).
Proof. reflexivity. Qed.

Lemma append_empty_l (s : string) : "" +:+ s = s.
Proof. reflexivity. Qed.

Lemma append_empty_r (s : string) : s +:+ "" = s.
Proof. induction s as [|c s IH]; [done|]. by rewrite append_String, IH. Qed.



Lemma doss_open_String : doss_open = String "d" ("oss=" +:+ String dquote "").
Proof. reflexivity. Qed.

Lemma strip_prefix_String (a b : ascii) (p s : string) :
  strip_prefix (String a p) (String b s)
  = if decide (a = b) then strip_prefix p s else None.
Proof. reflexivity. Qed.

Lemma occurs_String (p : string) (c : ascii) (s : string) :
  occurs p (String c s) = bool_decide (strip_prefix p (String c s) ≠ None) || occurs p s.
Proof. reflexivity. Qed.


Lemma strip_prefix_Some_inv (p s r : string) :
  strip_prefix p s = Some r → s = p +:+ r.
Proof.
  revert s. induction p as [|a p IH]; intros s H.
  - simpl in H. by injection H as ->.
  - destruct s as [|b s]; [done|]. rewrite strip_prefix_String in H.
    destruct (decide (a = b)) as [->|]; [|done].
    by rewrite append_String, <- (IH _ H).
Qed.

(** A failed attempt at the head stays failed when the text goes on with
    a character that the rest of the pattern does not contain. *)
Lemma strip_prefix_None_app (p g : string) (x : ascii) (r : string) :
  x ∉ String.list_ascii_of_string p →
  strip_prefix p g = None → strip_prefix p (g +:+ String x r) = None.
Proof.
  revert g. induction p as [|a p IH]; intros g Hx H; [done|].
  simpl in Hx. apply not_elem_of_cons in Hx as [Hxa Hx].
  destruct g as [|b g].
  - rewrite append_empty_l. simpl. by rewrite decide_False.
  - rewrite append_String. simpl in *.
    destruct (decide (a = b)); [by apply IH | done].
Qed.




(** *** Characters and runs of digits *)



Lemma is_char_nonempty (ch : string) : is_char ch = true → ch ≠ "".
Proof. by destruct ch. Qed.

Section PatternFacts.

Variable isdecimal : string → bool.

Lemma scan_String (c : ascii) (s : string) :
  scan isdecimal 0 (String c s)
  = match match_doss isdecimal (String c s) with
    | Some d => d :: scan isdecimal (String.length doss_open + String.length d) s
    | None => scan isdecimal 0 s
    end.
Proof. reflexivity. Qed.


Hypothesis quote_not_decimal : isdecimal (String dquote "") = false.







End PatternFacts.

(** Text free of the opening literal contributes no match, whether the
    document ends after it or goes on with a bib attribute. *)
Lemma scan_gap (isdecimal : string → bool) (gap rest : string) :
  occurs doss_open gap = false →
  rest = "" ∨ (∃ r, rest = doss_open +:+ r) →
  scan isdecimal 0 (gap +:+ rest) = scan isdecimal 0 rest.
Proof.
  intros Hocc Hrest. induction gap as [|c gap IH]; [done|].
  rewrite append_String. rewrite occurs_String in Hocc.
  apply orb_false_elim in Hocc as [Hhead Hocc].
  apply bool_decide_eq_false in Hhead.
  assert (Hnone : strip_prefix doss_open (String c gap) = None).
  { destruct (strip_prefix doss_open (String c gap)); [by destruct Hhead | done]. }
  assert (Hnone' : strip_prefix doss_open (String c (gap +:+ rest)) = None).
  { destruct Hrest as [->|[r ->]].
    - by rewrite append_empty_r.
    - rewrite doss_open_String in *. rewrite strip_prefix_String in *.
      destruct (decide ("d"%char = c)); [|done].
      rewrite append_String. apply strip_prefix_None_app; [compute_done | done]. }
  rewrite scan_String. unfold match_doss. rewrite Hnone'. simpl. by apply IH.
Qed.









(** ** Optional attributes *)

(** The two lists of the walk grow together. *)
Lemma align_lengths (checkpoints splits : list Element) (w : walk) :
  align checkpoints splits = Ok w → length (cptimes w) = length (cpranks w).
Proof.
  unfold align. intros H. peel H.
  revert H.
  apply (for_each_invariant (λ w, length (cptimes w) = length (cpranks w))); [|done].
  clear. intros w id w' Hw H. unfold align_round in H.
  apply bind_Ok_inv in H as (name & _ & H). cbv beta in H.
  destruct (bool_decide (name ∈ useless)).
  - peel H. destruct (bool_decide _); apply Ok_inj in H; by subst.
  - apply bind_Ok_inv in H as (e & _ & H). cbv beta in H.
    apply bind_Ok_inv in H as (sid & _ & H). cbv beta in H.
    destruct (bool_decide (id = sid)); peel H; apply Ok_inj in H; subst; simpl;
      rewrite !length_app; simpl; lia.
Qed.

Lemma achievement_Ok (race : Element) :
  past_race_ok race →
  ∃ a, achievement race = Ok a ∧ a !! "Elevation Gain" = Some (attrib race !! "deniv").
Proof.
  intros ([y Hy] & [n Hn] & [p Hp] & [t Ht] & [d Hd]). unfold achievement.
  rewrite (bind_Ok _ _ _ (subscript_Some _ _ _ Hy)).
  rewrite (bind_Ok _ _ _ (subscript_Some _ _ _ Hn)).
  rewrite (bind_Ok _ _ _ (subscript_Some _ _ _ Hp)).
  rewrite (bind_Ok _ _ _ (subscript_Some _ _ _ Ht)).
  rewrite (bind_Ok _ _ _ (subscript_Some _ _ _ Hd)).
  eexists. split; [reflexivity|]. apply lookup_insert_eq.
Qed.

Lemma achievements_of_Ok (past_races : list Element) :
  Forall past_race_ok past_races →
  ∃ achievements,
    achievements_of past_races = Ok achievements
    ∧ Forall2 (λ race a, a !! "Elevation Gain" = Some (attrib race !! "deniv"))
              past_races achievements.
Proof.
  unfold achievements_of. intros Hall.
  assert (∀ acc, ∃ achievements,
            for_each (λ acc race, a ← achievement race; Ok (acc ++ [a])) past_races acc
            = Ok (acc ++ achievements)
            ∧ Forall2 (λ race a, a !! "Elevation Gain" = Some (attrib race !! "deniv"))
                      past_races achievements) as H.
  { induction Hall as [|race races Hrace _ IH]; intros acc.
    - exists []. by rewrite app_nil_r.
    - destruct (achievement_Ok race Hrace) as (a & Ha & Hdeniv).
      destruct (IH (acc ++ [a])) as (achs & Hachs & Hrest).
      exists (a :: achs). split; [|by constructor].
      cbn [for_each]. rewrite (bind_Ok _ _ _ Ha). cbv beta.
      rewrite (bind_Ok _ _ (acc ++ [a]) eq_refl), Hachs.
      by rewrite <- app_assoc. }
  apply (H []).
Qed.

(** C8: whatever optional attributes are missing, a page that has the
    mandatory ones and at least seven aligned entries yields a row; a
    missing first name, category rank or gender rank is stored as [None],
    a missing club as the empty string, and a missing elevation gain of
    a past race as [None]. *)
Theorem runner_row_optional_attributes (year : Z) (bib : string) (root : Element)
    (identite state : Element) (w : walk) :
  find1 "identite" root = Some identite →
  is_Some (attrib identite !! "nom") → is_Some (attrib identite !! "sx") →
  is_Some (attrib identite !! "cat") → is_Some (attrib identite !! "nat") →
  find1 "state" root = Some state →
  is_Some (attrib state !! "clt") →
  align (findall2 "pts" "pt" root) (findall2 "pass" "e" root) = Ok w →
  7 ≤ length (cptimes w) →
  Forall past_race_ok (findall2 "palm" "e" root) →
  ∃ row achievements,
    runner_row year bib root = Ok row
    ∧ (attrib identite !! "prenom" = None → row !! "First Name" = Some VNone)
    ∧ (attrib identite !! "club" = None → row !! "Club" = Some (VStr ""))
    ∧ (attrib state !! "cltcat" = None → row !! "Category Rank" = Some VNone)
    ∧ (attrib state !! "cltsx" = None → row !! "Gender Rank" = Some VNone)
    ∧ row !! "Past Achievements" = Some (VList achievements)
    ∧ Forall2 (λ race a, attrib race !! "deniv" = None → a !! "Elevation Gain" = Some None)
              (findall2 "palm" "e" root) achievements.
Proof.
  intros Hid [nom Hnom] [sx Hsx] [cat Hcat] [nat Hnat] Hst [clt Hclt] Hw Hlen Hpast.
  assert (Hlen' : 7 ≤ length (cpranks w)) by (by rewrite <- (align_lengths _ _ _ Hw)).
  destruct (achievements_of_Ok _ Hpast) as (achs & Hachs & Hdeniv).
  assert (Hitem : ∀ (l : list pyval) j, j < length l → ∃ x, item l j = Ok x).
  { intros l j Hj. destruct (lookup_lt_is_Some_2 l j Hj) as [x Hx].
    exists x. by apply item_Some. }
  destruct (Hitem (cptimes w) 0) as [t0 Ht0]; [lia|].
  destruct (Hitem (cpranks w) 0) as [r0 Hr0]; [lia|].
  destruct (Hitem (cptimes w) 1) as [t1 Ht1]; [lia|].
  destruct (Hitem (cpranks w) 1) as [r1 Hr1]; [lia|].
  destruct (Hitem (cptimes w) 2) as [t2 Ht2]; [lia|].
  destruct (Hitem (cpranks w) 2) as [r2 Hr2]; [lia|].
  destruct (Hitem (cptimes w) 3) as [t3 Ht3]; [lia|].
  destruct (Hitem (cpranks w) 3) as [r3 Hr3]; [lia|].
  destruct (Hitem (cptimes w) 4) as [t4 Ht4]; [lia|].
  destruct (Hitem (cpranks w) 4) as [r4 Hr4]; [lia|].
  destruct (Hitem (cptimes w) 5) as [t5 Ht5]; [lia|].
  destruct (Hitem (cpranks w) 5) as [r5 Hr5]; [lia|].
  destruct (Hitem (cptimes w) 6) as [t6 Ht6]; [lia|].
  destruct (Hitem (cpranks w) 6) as [r6 Hr6]; [lia|].
  unfold runner_row. rewrite Hid, Hst.
  rewrite (bind_Ok _ _ (attrib identite) eq_refl).
  rewrite (bind_Ok _ _ _ (subscript_Some _ _ _ Hnom)).
  rewrite (bind_Ok _ _ _ (subscript_Some _ _ _ Hsx)).
  rewrite (bind_Ok _ _ _ (subscript_Some _ _ _ Hcat)).
  rewrite (bind_Ok _ _ _ (subscript_Some _ _ _ Hnat)).
  rewrite (bind_Ok _ _ (attrib state) eq_refl).
  rewrite (bind_Ok _ _ _ (subscript_Some _ _ _ Hclt)).
  rewrite (bind_Ok _ _ _ Hw), (bind_Ok _ _ _ Hachs).
  rewrite (bind_Ok _ _ _ Ht0), (bind_Ok _ _ _ Hr0), (bind_Ok _ _ _ Ht1), (bind_Ok _ _ _ Hr1).
  rewrite (bind_Ok _ _ _ Ht2), (bind_Ok _ _ _ Hr2), (bind_Ok _ _ _ Ht3), (bind_Ok _ _ _ Hr3).
  rewrite (bind_Ok _ _ _ Ht4), (bind_Ok _ _ _ Hr4), (bind_Ok _ _ _ Ht5), (bind_Ok _ _ _ Hr5).
  rewrite (bind_Ok _ _ _ Ht6), (bind_Ok _ _ _ Hr6).
  eexists _, achs. split; [reflexivity|].
  unfold py_get.
  split; [by intros ->|]. split; [by intros ->|].
  split; [by intros ->|]. split; [by intros ->|].
  split; [reflexivity|].
  eapply Forall2_impl; [exact Hdeniv|]. simpl. by intros race a -> ->.
Qed.

Lemma runner_row_optional_attributes_witness :
  ∃ row achievements,
    runner_row 2022 "12" Samples.page_seven = Ok row
    ∧ row !! "First Name" = Some VNone
    ∧ row !! "Club" = Some (VStr "")
    ∧ row !! "Category Rank" = Some VNone
    ∧ row !! "Gender Rank" = Some VNone
    ∧ row !! "Past Achievements" = Some (VList achievements)
    ∧ Forall2 (λ race a, attrib race !! "deniv" = None → a !! "Elevation Gain" = Some None)
              [Samples.past_race] achievements.
Proof.
  destruct (runner_row_optional_attributes 2022 "12" Samples.page_seven
              Samples.identite_min Samples.state_min Samples.walk_seven)
    as (row & achs & Hrow & Hprenom & Hclub & Hcltcat & Hcltsx & Hpast & Hdeniv).
  - reflexivity.
  - by eexists.
  - by eexists.
  - by eexists.
  - by eexists.
  - reflexivity.
  - by eexists.
  - vm_compute. reflexivity.
  - simpl. lia.
  - repeat constructor; by eexists.
  - exists row, achs. split; [exact Hrow|].
    split; [by apply Hprenom|]. split; [by apply Hclub|].
    split; [by apply Hcltcat|]. split; [by apply Hcltsx|].
    split; [exact Hpast | exact Hdeniv].
Defined.

(** ** The 2017 edition *)

Lemma legacy_loop_eq (root : Element) (data : list (gmap string pyval)) :
  legacy_loop root data = data ++ map legacy_row (findall2 "classement" "c" root).
Proof.
  unfold legacy_loop. generalize (findall2 "classement" "c" root) as runners.
  intros runners. revert data.
  induction runners as [|runner runners IH]; intros data; simpl.
  - by rewrite app_nil_r.
  - by rewrite IH, <- app_assoc.
Qed.

(** The rows the loop adds are the images of the ranking elements. *)
Lemma legacy_loop_new_rows (root : Element) (data : list (gmap string pyval)) row :
  row ∈ drop (length data) (legacy_loop root data) →
  ∃ runner, runner ∈ findall2 "classement" "c" root ∧ row = legacy_row runner.
Proof.
  rewrite legacy_loop_eq, drop_app_length. intros (runner & -> & H)%list_elem_of_fmap.
  eauto.
Qed.

(** C9: the 2017 loop keeps the rows it is given and appends one row per
    element of the ranking table, in the order of the table.  The row of
    an element has no column for the slots 0 to 5 and none for the past
    achievements; of the slot columns it has those of slot 6 only, which
    hold the [tps] and the [class] of that element as strings (None for
    an attribute the element does not have). *)
Theorem legacy_rows_last_slot_only (root : Element) (data : list (gmap string pyval)) :
  take (length data) (legacy_loop root data) = data
  ∧ length (legacy_loop root data)
    = length data + length (findall2 "classement" "c" root)
  ∧ ∀ i runner,
      findall2 "classement" "c" root !! i = Some runner →
      ∃ row,
        legacy_loop root data !! (length data + i) = Some row
        ∧ (∀ j, j < 6 → row !! time_column j = None ∧ row !! rank_column j = None)
        ∧ row !! time_column 6 = Some (from_option VStr VNone (attrib runner !! "tps"))
        ∧ row !! rank_column 6 = Some (from_option VStr VNone (attrib runner !! "class"))
        ∧ row !! "Past Achievements" = None
        ∧ dom row = legacy_columns.
Proof.
  rewrite legacy_loop_eq. split; [|split].
  - by rewrite take_app_length.
  - by rewrite length_app, length_map.
  - intros i runner Hi. exists (legacy_row runner). split; [|split; [|split; [|split; [|split]]]].
    + rewrite lookup_app_r by lia.
      replace (length data + i - length data) with i by lia.
      by rewrite list_lookup_fmap, Hi.
    + intros j Hj. do 6 (destruct j as [|j]; [by split|]). lia.
    + reflexivity.
    + reflexivity.
    + reflexivity.
    + unfold legacy_row. rewrite !dom_insert_L, dom_empty_L. compute_done.
Qed.

Lemma legacy_rows_last_slot_only_witness :
  ∃ row,
    legacy_loop Samples.table_2017 [Samples.row_seven] !! 2 = Some row
    ∧ (∀ j, j < 6 → row !! time_column j = None ∧ row !! rank_column j = None)
    ∧ row !! "Pt6 time" = Some (VStr "05:51:03")
    ∧ row !! "Pt6 rank" = Some (VStr "2")
    ∧ row !! "Past Achievements" = None
    ∧ dom row = legacy_columns.
Proof.
  destruct (legacy_rows_last_slot_only Samples.table_2017 [Samples.row_seven])
    as (_ & _ & Hrows).
  apply (Hrows 1 Samples.second_2017). reflexivity.
Defined.

(** C10: in a row added by the 2017 loop the rank of slot 6 is the global
    rank, both read from the attribute [class], and there is no column
    for the gender rank. *)
Theorem legacy_rows_rank_is_global_rank (root : Element)
    (data : list (gmap string pyval)) (row : gmap string pyval) :
  row ∈ drop (length data) (legacy_loop root data) →
  (∃ runner, runner ∈ findall2 "classement" "c" root
     ∧ row !! "Pt6 rank" = Some (py_get (attrib runner) "class")
     ∧ row !! "Global Rank" = Some (py_get (attrib runner) "class"))
  ∧ row !! "Pt6 rank" = row !! "Global Rank"
  ∧ row !! "Gender Rank" = None.
Proof.
  intros (runner & Hrunner & ->)%legacy_loop_new_rows.
  split; [|split].
  - exists runner. by repeat split.
  - reflexivity.
  - reflexivity.
Qed.

Lemma legacy_rows_rank_is_global_rank_witness :
  legacy_row Samples.winner_2017 !! "Pt6 rank" = Some (VStr "1")
  ∧ legacy_row Samples.winner_2017 !! "Pt6 rank"
    = legacy_row Samples.winner_2017 !! "Global Rank"
  ∧ legacy_row Samples.winner_2017 !! "Gender Rank" = None.
Proof.
  destruct (legacy_rows_rank_is_global_rank Samples.table_2017 []
              (legacy_row Samples.winner_2017)) as (_ & Heq & Hgender).
  - rewrite legacy_loop_eq. simpl.
    change (findall2 "classement" "c" Samples.table_2017)
      with [Samples.winner_2017; Samples.second_2017].
    apply list_elem_of_here.
  - split; [reflexivity|]. split; [exact Heq | exact Hgender].
Defined.

(** * Further properties *)

(** ** The split walk on a whole page *)

Lemma is_Some_idpt_of (e : Element) :
  is_Some (attrib e !! "idpt") → attrib e !! "idpt" = Some (idpt_of e).
Proof. unfold idpt_of. by intros [k ->]. Qed.

Lemma is_Some_name_of (pt : Element) :
  is_Some (attrib pt !! "n") → attrib pt !! "n" = Some (name_of pt).
Proof. unfold name_of. by intros [k ->]. Qed.

(** The dictionary comprehension succeeds when every checkpoint has both
    attributes; with distinct ids each id is mapped to its own name. *)
Lemma checkpoint_dict_of_Ok (checkpoints : list Element) :
  Forall (λ pt, is_Some (attrib pt !! "idpt") ∧ is_Some (attrib pt !! "n")) checkpoints →
  NoDup (map idpt_of checkpoints) →
  ∃ d, checkpoint_dict_of checkpoints = Ok d
       ∧ ∀ pt, pt ∈ checkpoints → d !! idpt_of pt = Some (name_of pt).
Proof.
  unfold checkpoint_dict_of. intros Hall Hnd.
  assert (∀ d0 : gmap string string, ∃ d,
            for_each (λ (d : gmap string string) cp,
                        k ← subscript (attrib cp) "idpt";
                        v ← subscript (attrib cp) "n";
                        Ok (<[k := v]> d)) checkpoints d0 = Ok d
            ∧ (∀ pt, pt ∈ checkpoints → d !! idpt_of pt = Some (name_of pt))
            ∧ (∀ k, k ∉ map idpt_of checkpoints → d !! k = d0 !! k)) as H.
  { induction Hall as [|pt pts [Hid Hn] _ IH]; intros d0.
    - exists d0. split; [done|]. split; [|done]. intros pt Hpt. by apply elem_of_nil in Hpt.
    - apply NoDup_cons in Hnd as [Hfresh Hnd].
      destruct (IH Hnd (<[idpt_of pt := name_of pt]> d0)) as (d & Hd & Hin & Hout).
      exists d. split; [|split].
      + cbn [for_each].
        rewrite (bind_Ok _ _ _ (subscript_Some _ _ _ (is_Some_idpt_of _ Hid))).
        rewrite (bind_Ok _ _ _ (subscript_Some _ _ _ (is_Some_name_of _ Hn))).
        exact Hd.
      + intros pt' [->|Hpt']%elem_of_cons; [|by apply Hin].
        rewrite (Hout _ Hfresh). apply lookup_insert_eq.
      + intros k Hk. cbn [map] in Hk. apply not_elem_of_cons in Hk as [Hne Hk].
        rewrite (Hout _ Hk). by apply lookup_insert_ne. }
  destruct (H ∅) as (d & Hd & Hin & _). eauto.
Qed.

Lemma checkpoints_ids_of_Ok (checkpoints : list Element) :
  Forall (λ pt, is_Some (attrib pt !! "idpt")) checkpoints →
  checkpoints_ids_of checkpoints = Ok (map idpt_of checkpoints).
Proof.
  unfold checkpoints_ids_of. intros Hall.
  assert (∀ acc, for_each (λ (ids : list string) cp,
                             k ← subscript (attrib cp) "idpt"; Ok (ids ++ [k]))
                   checkpoints acc = Ok (acc ++ map idpt_of checkpoints)) as H.
  { induction Hall as [|pt pts Hid _ IH]; intros acc; cbn [for_each map].
    - by rewrite app_nil_r.
    - rewrite (bind_Ok _ _ _ (subscript_Some _ _ _ (is_Some_idpt_of _ Hid))).
      rewrite (bind_Ok _ _ (acc ++ [idpt_of pt]) eq_refl), IH.
      by rewrite <- app_assoc. }
  apply (H []).
Qed.

Lemma next_recorded_Some plan pt e :
  next_recorded plan = Some (pt, e) →
  (pt, Some e) ∈ plan ∧ ∃ rest, omap snd plan = e :: rest.
Proof.
  induction plan as [|[pt' [e'|]] plan IH]; intros H; simpl in *.
  - done.
  - injection H as -> ->. split; [apply list_elem_of_here | eauto].
  - destruct (IH H) as [Hin Hrest]. split; [by apply list_elem_of_further | done].
Qed.

Lemma kept_true (pt : Element) : kept pt = true → name_of pt ∉ useless.
Proof. unfold kept. apply bool_decide_eq_true_1. Qed.

Lemma kept_false (pt : Element) : kept pt = false → name_of pt ∈ useless.
Proof.
  unfold kept. intros H%bool_decide_eq_false_1.
  destruct (decide (name_of pt ∈ useless)); [done | by destruct H].
Qed.

(** The walk over a plan whose gaps are closed, started anywhere: it
    consumes the splits of the plan and appends what is due at each race
    checkpoint. *)
Lemma walk_plan (d : gmap string string) (plan : list (Element * option Element)) :
  ∀ (done : list Element) (w : walk),
    Forall entry_ok plan →
    (∀ pt, pt ∈ map fst plan → d !! idpt_of pt = Some (name_of pt)) →
    NoDup (map idpt_of (map fst plan)) →
    gaps_closed plan = true →
    cursor w = length done →
    for_each (align_round d (done ++ omap snd plan)) (map idpt_of (map fst plan)) w
    = Ok (mkWalk (cursor w + length (omap snd plan))
                 (cptimes w ++ times_due plan) (cpranks w ++ ranks_due plan)).
Proof.
  unfold times_due, ranks_due.
  induction plan as [|[pt r] plan IH]; intros done w Hok Hd Hnd Hgaps Hcur.
  - simpl. rewrite Nat.add_0_r, !app_nil_r. by destruct w.
  - apply Forall_cons in Hok as [(Hid & Hn & Hr) Hok]. simpl in Hid, Hn, Hr.
    cbn [map fst] in Hnd, Hd. apply NoDup_cons in Hnd as [Hfresh Hnd].
    assert (Hname : d !! idpt_of pt = Some (name_of pt))
      by apply Hd, list_elem_of_here.
    assert (Hd' : ∀ pt', pt' ∈ map fst plan → d !! idpt_of pt' = Some (name_of pt'))
      by (intros pt' Hpt'; by apply Hd, list_elem_of_further).
    cbn [map fst for_each List.filter compose].
    destruct r as [e|].
    + destruct Hr as [Hide Htps]. rewrite (is_Some_idpt_of _ Hid) in Hide.
      assert (Hsplit : (done ++ omap snd ((pt, Some e) :: plan)) !! cursor w = Some e).
      { rewrite Hcur. by rewrite lookup_app_r, Nat.sub_diag by lia. }
      assert (Hshift : done ++ omap snd ((pt, Some e) :: plan)
                       = (done ++ [e]) ++ omap snd plan) by (by rewrite <- app_assoc).
      cbn [gaps_closed] in Hgaps.
      destruct (kept pt) eqn:Hkept.
      * destruct (Htps eq_refl) as [tps Htps'].
        rewrite (bind_Ok _ _ _
                   (align_round_hit d _ w _ _ e tps Hname (kept_true _ Hkept)
                      Hsplit Hide Htps')).
        rewrite Hshift, IH by (try done; simpl; rewrite length_app; simpl; lia).
        simpl. rewrite <- !app_assoc. simpl. rewrite Htps'. simpl.
        by rewrite Nat.add_succ_r.
      * rewrite (bind_Ok _ _ _
                   (align_round_useless d _ w _ _ e _ _ Hname (kept_false _ Hkept)
                      Hsplit Hide Hname)).
        rewrite bool_decide_eq_true_2 by (by apply kept_false).
        rewrite Hshift, IH by (try done; simpl; rewrite length_app; simpl; lia).
        simpl. by rewrite Nat.add_succ_r.
    + cbn [gaps_closed] in Hgaps.
      destruct (next_recorded plan) as [[pt' e']|] eqn:Hnext; [|done].
      apply andb_prop in Hgaps as [Hkeep Hgaps].
      destruct (next_recorded_Some _ _ _ Hnext) as [Hin [rest Hrest]].
      assert (Hpt' : pt' ∈ map fst plan).
      { apply list_elem_of_fmap. by exists (pt', Some e'). }
      assert (Hide' : attrib e' !! "idpt" = Some (idpt_of pt')).
      { rewrite Forall_forall in Hok. destruct (Hok _ Hin) as (Hid' & _ & Heq & _).
        simpl in *. by rewrite Heq, (is_Some_idpt_of _ Hid'). }
      assert (Hsplit : (done ++ omap snd ((pt, None) :: plan)) !! cursor w = Some e').
      { rewrite Hcur. change (omap snd ((pt, None) :: plan)) with (omap snd plan).
        rewrite lookup_app_r, Nat.sub_diag by lia. by rewrite Hrest. }
      assert (Hsame : omap snd ((pt, None) :: plan) = omap snd plan) by done.
      destruct (kept pt) eqn:Hkept.
      * assert (Hne : idpt_of pt ≠ idpt_of pt').
        { intros Heq. apply Hfresh. rewrite Heq. by apply list_elem_of_fmap_2. }
        rewrite (bind_Ok _ _ _
                   (align_round_miss d _ w _ _ e' _ Hname (kept_true _ Hkept)
                      Hsplit Hide' Hne)).
        rewrite Hsame, IH by done. simpl. by rewrite <- !app_assoc.
      * simpl in Hkeep.
        rewrite (bind_Ok _ _ _
                   (align_round_useless d _ w _ _ e' _ _ Hname (kept_false _ Hkept)
                      Hsplit Hide' (Hd' _ Hpt'))).
        rewrite bool_decide_eq_false_2 by (by apply kept_true).
        rewrite Hsame. by apply IH.
Qed.

Lemma checkpoints_have_idpt (checkpoints : list Element) :
  Forall (λ pt, is_Some (attrib pt !! "idpt") ∧ is_Some (attrib pt !! "n")) checkpoints →
  Forall (λ pt, is_Some (attrib pt !! "idpt")) checkpoints.
Proof. intros H. eapply Forall_impl; [exact H|]. by intros pt [? _]. Qed.

Lemma entry_ok_checkpoint (plan : list (Element * option Element)) :
  Forall entry_ok plan →
  Forall (λ pt, is_Some (attrib pt !! "idpt") ∧ is_Some (attrib pt !! "n")) (map fst plan).
Proof.
  intros H. apply Forall_fmap. eapply Forall_impl; [exact H|].
  intros [pt r] (Hid & Hn & _). by split.
Qed.

(** X1: on a page whose checkpoints have distinct ids and whose gaps are
    closed (every checkpoint without a split is followed by a recorded
    one, an excluded one by a recorded race checkpoint), the walk
    consumes every split and yields, for each race checkpoint in order,
    the time and rank of its own split or the marker. *)
Theorem align_closed_gaps (plan : list (Element * option Element)) :
  Forall entry_ok plan →
  NoDup (map idpt_of (map fst plan)) →
  gaps_closed plan = true →
  align (map fst plan) (omap snd plan)
  = Ok (mkWalk (length (omap snd plan)) (times_due plan) (ranks_due plan)).
Proof.
  intros Hok Hnd Hgaps. unfold align.
  assert (Hcps := entry_ok_checkpoint _ Hok).
  destruct (checkpoint_dict_of_Ok _ Hcps Hnd) as (d & Hd & Hlook).
  rewrite (bind_Ok _ _ _ Hd).
  rewrite (bind_Ok _ _ _ (checkpoints_ids_of_Ok _ (checkpoints_have_idpt _ Hcps))).
  exact (walk_plan d plan [] (mkWalk 0 [] []) Hok Hlook Hnd Hgaps eq_refl).
Qed.

Lemma align_closed_gaps_witness :
  align (findall2 "pts" "pt" Samples.page_seven) (findall2 "pass" "e" Samples.page_seven)
  = Ok (mkWalk 6
          [VStr "01:00:00"; VStr "02:00:00"; VStr "03:00:00"; VNaN; VNaN;
           VStr "06:00:00"; VStr "07:00:00"]
          [VStr "5"; VStr "6"; VStr "7"; VNaN; VNaN; VStr "4"; VStr "3"]).
Proof.
  apply (align_closed_gaps Scenarios.plan_seven).
  - repeat constructor; try (by eexists); done.
  - compute_done.
  - reflexivity.
Defined.

(** X2: when checkpoints remain after the last recorded split, the walk
    raises [IndexError] at the first of them, whatever comes before. *)
Theorem align_trailing_gap (plan : list (Element * option Element))
    (pt : Element) (trailing : list Element) :
  Forall entry_ok plan →
  Forall (λ pt, is_Some (attrib pt !! "idpt") ∧ is_Some (attrib pt !! "n"))
         (pt :: trailing) →
  NoDup (map idpt_of (map fst plan ++ pt :: trailing)) →
  gaps_closed plan = true →
  align (map fst plan ++ pt :: trailing) (omap snd plan) = Raise IndexError.
Proof.
  intros Hok Htrail Hnd Hgaps. unfold align.
  assert (Hcps := entry_ok_checkpoint _ Hok).
  assert (Hall : Forall (λ pt, is_Some (attrib pt !! "idpt") ∧ is_Some (attrib pt !! "n"))
                   (map fst plan ++ pt :: trailing)) by (by apply Forall_app).
  destruct (checkpoint_dict_of_Ok _ Hall Hnd) as (d & Hd & Hlook).
  rewrite (bind_Ok _ _ _ Hd).
  rewrite (bind_Ok _ _ _ (checkpoints_ids_of_Ok _ (checkpoints_have_idpt _ Hall))).
  rewrite map_app in Hnd |- *. apply NoDup_app in Hnd as (Hnd & _ & _).
  rewrite for_each_app.
  assert (Hlook' : ∀ pt', pt' ∈ map fst plan → d !! idpt_of pt' = Some (name_of pt')).
  { intros pt' Hpt'. apply Hlook, elem_of_app. by left. }
  assert (Hw : for_each (align_round d (omap snd plan)) (map idpt_of (map fst plan))
                 (mkWalk 0 [] [])
               = Ok (mkWalk (length (omap snd plan)) (times_due plan) (ranks_due plan)))
    by exact (walk_plan d plan [] (mkWalk 0 [] []) Hok Hlook' Hnd Hgaps eq_refl).
  rewrite (bind_Ok _ _ _ Hw).
  apply for_each_cons_Raise, align_round_past_end.
  - rewrite Hlook; [done|]. apply elem_of_app. right. apply list_elem_of_here.
  - simpl. lia.
Qed.

Lemma align_trailing_gap_witness :
  align (map fst Scenarios.plan_seven ++ [Samples.pt "8" "H"; Samples.pt "9" "I"])
        (findall2 "pass" "e" Samples.page_seven)
  = Raise IndexError.
Proof.
  apply (align_trailing_gap Scenarios.plan_seven (Samples.pt "8" "H") [Samples.pt "9" "I"]).
  - repeat constructor; try (by eexists); done.
  - repeat constructor; by eexists.
  - compute_done.
  - reflexivity.
Defined.

(** ** What a successful walk guarantees *)

(** A round that returns has found a split at the cursor and has either
    left the walk alone, passed the split, recorded it, or appended the
    marker. *)
Lemma align_round_Ok_inv (d : gmap string string) (splits : list Element)
    (w w' : walk) (id : string) :
  align_round d splits w id = Ok w' →
  ∃ e, splits !! cursor w = Some e
       ∧ (w' = w
          ∨ w' = mkWalk (S (cursor w)) (cptimes w) (cpranks w)
          ∨ (∃ tps, attrib e !! "tps" = Some tps
                    ∧ w' = mkWalk (S (cursor w)) (cptimes w ++ [VStr tps])
                                  (cpranks w ++ [rank_of e]))
          ∨ w' = mkWalk (cursor w) (cptimes w ++ [VNaN]) (cpranks w ++ [VNaN])).
Proof.
  unfold align_round. intros H.
  apply bind_Ok_inv in H as (name & _ & H). cbv beta in H.
  destruct (bool_decide (name ∈ useless)).
  - apply bind_Ok_inv in H as (e & He%item_Ok_inv & H). cbv beta in H.
    apply bind_Ok_inv in H as (sid & _ & H). cbv beta in H.
    apply bind_Ok_inv in H as (sname & _ & H). cbv beta in H.
    exists e. split; [done|].
    destruct (bool_decide (sname ∈ useless)); apply Ok_inj in H; subst; [|by left].
    by right; left.
  - apply bind_Ok_inv in H as (e & He%item_Ok_inv & H). cbv beta in H.
    apply bind_Ok_inv in H as (sid & _ & H). cbv beta in H.
    exists e. split; [done|].
    destruct (bool_decide (id = sid)).
    + apply bind_Ok_inv in H as (tps & Htps%subscript_Ok_inv & H). cbv beta zeta in H.
      apply Ok_inj in H. subst. right; right; left. by exists tps.
    + apply Ok_inj in H. subst. by right; right; right.
Qed.

Lemma align_round_from_splits d splits w id w' :
  from_splits splits w → align_round d splits w id = Ok w' → from_splits splits w'.
Proof.
  intros (Hcur & Ht & Hr) (e & He & Hcases)%align_round_Ok_inv.
  assert (Hin : e ∈ splits) by (by eapply list_elem_of_lookup_2).
  assert (Hlt : cursor w < length splits) by (by eapply lookup_lt_Some).
  destruct Hcases as [->|[->|[(tps & Htps & ->)| ->]]]; unfold from_splits; simpl.
  - done.
  - split; [lia|done].
  - split; [lia|]. split; apply Forall_app; (split; [done|]);
      apply Forall_singleton; right; eauto.
  - split; [lia|]. split; apply Forall_app; (split; [done|]);
      apply Forall_singleton; by left.
Qed.

Lemma walk_length (d : gmap string string) (splits : list Element) (ids : list string) :
  ∀ w w', for_each (align_round d splits) ids w = Ok w' →
          length (cptimes w') ≤ length (cptimes w) + length ids.
Proof.
  induction ids as [|id ids IH]; intros w w' H; simpl in H.
  - apply Ok_inj in H. subst. lia.
  - apply bind_Ok_inv in H as (w1 & H1 & H). apply IH in H.
    apply align_round_Ok_inv in H1 as (e & _ & [->|[->|[(tps & _ & ->)| ->]]]);
      simpl in *; rewrite ?length_app in *; simpl in *; lia.
Qed.

Lemma checkpoints_ids_of_length (checkpoints : list Element) (ids : list string) :
  checkpoints_ids_of checkpoints = Ok ids → length ids = length checkpoints.
Proof.
  unfold checkpoints_ids_of.
  assert (∀ acc ids, for_each (λ (ids : list string) cp,
                                 k ← subscript (attrib cp) "idpt"; Ok (ids ++ [k]))
                       checkpoints acc = Ok ids →
                     length ids = length acc + length checkpoints) as H.
  { induction checkpoints as [|cp cps IH]; intros acc ids' H; simpl in H.
    - apply Ok_inj in H. subst. simpl. lia.
    - apply bind_Ok_inv in H as (acc' & Hacc & H).
      apply bind_Ok_inv in Hacc as (k & _ & Hacc). apply Ok_inj in Hacc. subst acc'.
      apply IH in H. rewrite length_app in H. simpl in *. lia. }
  intros Hids. by apply H in Hids.
Qed.

Lemma align_invariants (checkpoints splits : list Element) (w : walk) :
  align checkpoints splits = Ok w →
  from_splits splits w
  ∧ length (cptimes w) = length (cpranks w)
  ∧ length (cptimes w) ≤ length checkpoints.
Proof.
  intros H. split; [|split].
  - unfold align in H. peel H. revert H.
    apply (for_each_invariant (from_splits splits)).
    + intros w0 id w1. apply align_round_from_splits.
    + unfold from_splits. simpl. split; [lia|]. split; constructor.
  - by apply (align_lengths _ _ _ H).
  - unfold align in H. apply bind_Ok_inv in H as (d & _ & H). cbv beta in H.
    apply bind_Ok_inv in H as (ids & Hids & H). cbv beta in H.
    apply walk_length in H. apply checkpoints_ids_of_length in Hids. simpl in H. lia.
Qed.

(** X3: when the walk returns, the cursor is within the recorded splits,
    there are as many ranks as times and at most one per checkpoint
    element, and every stored time is the marker or the [tps] of a
    recorded split of the page. *)
Theorem align_sound (checkpoints splits : list Element) (w : walk) :
  align checkpoints splits = Ok w →
  cursor w ≤ length splits
  ∧ length (cptimes w) = length (cpranks w)
  ∧ length (cptimes w) ≤ length checkpoints
  ∧ (∀ v, v ∈ cptimes w →
       v = VNaN ∨ ∃ e tps, e ∈ splits ∧ attrib e !! "tps" = Some tps ∧ v = VStr tps)
  ∧ (∀ v, v ∈ cpranks w → v = VNaN ∨ ∃ e, e ∈ splits ∧ v = rank_of e).
Proof.
  intros ((Hcur & Ht & Hr) & Hlen & Hcps)%align_invariants.
  rewrite Forall_forall in Ht. rewrite Forall_forall in Hr. by repeat split.
Qed.

Lemma align_sound_witness :
  cursor Samples.walk_seven ≤ 6
  ∧ length (cptimes Samples.walk_seven) = length (cpranks Samples.walk_seven)
  ∧ length (cptimes Samples.walk_seven) ≤ 8
  ∧ (∀ v, v ∈ cptimes Samples.walk_seven →
       v = VNaN ∨ ∃ e tps, e ∈ findall2 "pass" "e" Samples.page_seven
                           ∧ attrib e !! "tps" = Some tps ∧ v = VStr tps)
  ∧ (∀ v, v ∈ cpranks Samples.walk_seven →
       v = VNaN ∨ ∃ e, e ∈ findall2 "pass" "e" Samples.page_seven ∧ v = rank_of e).
Proof.
  apply (align_sound (findall2 "pts" "pt" Samples.page_seven)
           (findall2 "pass" "e" Samples.page_seven) Samples.walk_seven).
  vm_compute. reflexivity.
Defined.

(** X4: a row is built only from a page with at least seven checkpoint
    elements, and each of its seven times is the marker or the [tps] of
    a recorded split of that page. *)
Theorem runner_row_times_from_page (year : Z) (bib : string) (root : Element)
    (row : gmap string pyval) :
  runner_row year bib root = Ok row →
  7 ≤ length (findall2 "pts" "pt" root)
  ∧ ∀ j, j < 7 →
      ∃ v, row !! time_column j = Some v
           ∧ (v = VNaN ∨ ∃ e tps, e ∈ findall2 "pass" "e" root
                                  ∧ attrib e !! "tps" = Some tps ∧ v = VStr tps).
Proof.
  intros (w & Hw & Hlen & _ & _ & Hslots)%runner_row_Ok_inv.
  destruct (align_invariants _ _ _ Hw) as ((_ & Ht & _) & _ & Hcps).
  split; [lia|]. intros j Hj.
  destruct (lookup_lt_is_Some_2 (cptimes w) j) as [v Hv]; [lia|].
  exists v. split; [by rewrite (proj1 (Hslots j Hj))|].
  rewrite Forall_forall in Ht. apply Ht. by eapply list_elem_of_lookup_2.
Qed.

Lemma runner_row_times_from_page_witness :
  7 ≤ length (findall2 "pts" "pt" Samples.page_seven)
  ∧ ∀ j, j < 7 →
      ∃ v, Samples.row_seven !! time_column j = Some v
           ∧ (v = VNaN ∨ ∃ e tps, e ∈ findall2 "pass" "e" Samples.page_seven
                                  ∧ attrib e !! "tps" = Some tps ∧ v = VStr tps).
Proof.
  apply (runner_row_times_from_page 2022 "12" Samples.page_seven Samples.row_seven).
  compute_done.
Defined.

(** ** What the bib extractor returns *)

Lemma join_cons (ch : string) (chars : list string) :
  join (ch :: chars) = ch +:+ join chars.
Proof. reflexivity. Qed.

(** The run taken at the head of a text is a prefix of it, made of whole
    characters that are decimal digits. *)
Lemma span_digits_inv (isdecimal : string → bool) :
  ∀ n s d r,
    String.length s ≤ n →
    span_digits isdecimal s = (d, r) →
    s = d +:+ r
    ∧ ∃ chars, Forall (λ ch, is_char ch = true ∧ isdecimal ch = true) chars
               ∧ d = join chars.
Proof.
  assert (Hstop : ∀ s d r, (EmptyString, s) = (d, r) →
            s = d +:+ r
            ∧ ∃ chars, Forall (λ ch, is_char ch = true ∧ isdecimal ch = true) chars
                       ∧ d = join chars).
  { intros s d r [= <- <-]. split; [done|]. by exists []. }
  induction n as [|n IH]; intros s d r Hn H.
  { destruct s; [|simpl in Hn; lia]. simpl in H. by apply Hstop. }
  destruct s as [|b0 s1]; [simpl in H; by apply Hstop|].
  cbn [span_digits] in H. simpl in Hn.
  destruct (char_len b0) as [|[|[|[|[|k]]]]] eqn:Hlen; try (by apply Hstop).
  - destruct (isdecimal (String b0 "")) eqn:Hd; [|by apply Hstop].
    destruct (span_digits isdecimal s1) as [d' r'] eqn:Hs. injection H as <- <-.
    destruct (IH s1 d' r') as [-> (chars & Hall & ->)]; [lia | done |].
    split; [done|]. exists (String b0 "" :: chars). split; [|done].
    constructor; [|done]. split; [|done].
    unfold is_char. rewrite Hlen. reflexivity.
  - destruct s1 as [|b1 s2]; [by apply Hstop|].
    destruct (is_cont b1) eqn:Hc1; [|by apply Hstop].
    destruct (isdecimal (String b0 (String b1 ""))) eqn:Hd; [|by apply Hstop].
    simpl in H, Hn.
    destruct (span_digits isdecimal s2) as [d' r'] eqn:Hs. injection H as <- <-.
    destruct (IH s2 d' r') as [-> (chars & Hall & ->)]; [lia | done |].
    split; [done|]. exists (String b0 (String b1 "") :: chars). split; [|done].
    constructor; [|done]. split; [|done].
    unfold is_char. rewrite Hlen. cbn [String.length all_cont]. rewrite Hc1.
    reflexivity.
  - destruct s1 as [|b1 [|b2 s3]]; [by apply Hstop..|].
    destruct (is_cont b1) eqn:Hc1; [|by apply Hstop].
    destruct (is_cont b2) eqn:Hc2; [|by apply Hstop].
    destruct (isdecimal (String b0 (String b1 (String b2 "")))) eqn:Hd;
      [|by apply Hstop].
    simpl in H, Hn.
    destruct (span_digits isdecimal s3) as [d' r'] eqn:Hs. injection H as <- <-.
    destruct (IH s3 d' r') as [-> (chars & Hall & ->)]; [lia | done |].
    split; [done|]. exists (String b0 (String b1 (String b2 "")) :: chars).
    split; [|done]. constructor; [|done]. split; [|done].
    unfold is_char. rewrite Hlen. cbn [String.length all_cont]. rewrite Hc1, Hc2.
    reflexivity.
  - destruct s1 as [|b1 [|b2 [|b3 s4]]]; [by apply Hstop..|].
    destruct (is_cont b1) eqn:Hc1; [|by apply Hstop].
    destruct (is_cont b2) eqn:Hc2; [|by apply Hstop].
    destruct (is_cont b3) eqn:Hc3; [|by apply Hstop].
    destruct (isdecimal (String b0 (String b1 (String b2 (String b3 ""))))) eqn:Hd;
      [|by apply Hstop].
    simpl in H, Hn.
    destruct (span_digits isdecimal s4) as [d' r'] eqn:Hs. injection H as <- <-.
    destruct (IH s4 d' r') as [-> (chars & Hall & ->)]; [lia | done |].
    split; [done|].
    exists (String b0 (String b1 (String b2 (String b3 ""))) :: chars).
    split; [|done]. constructor; [|done]. split; [|done].
    unfold is_char. rewrite Hlen. cbn [String.length all_cont]. rewrite Hc1, Hc2, Hc3.
    reflexivity.
Qed.

Lemma match_doss_Some_inv (isdecimal : string → bool) (s d : string) :
  match_doss isdecimal s = Some d →
  digit_run isdecimal d ∧ ∃ r, s = doss_open +:+ d +:+ String dquote r.
Proof.
  unfold match_doss. intros H.
  destruct (strip_prefix doss_open s) as [r|] eqn:Hp; [|done]. simpl in H.
  apply strip_prefix_Some_inv in Hp as ->.
  destruct (span_digits isdecimal r) as [d' r'] eqn:Hs.
  apply (span_digits_inv isdecimal _ _ _ _ (le_n _)) in Hs as [-> (chars & Hall & ->)].
  destruct (join chars) as [|c d'] eqn:Hj; [done|]. destruct r' as [|q r']; [done|].
  destruct (decide (q = dquote)) as [->|]; [|done]. injection H as <-.
  split; [|by exists r'].
  exists chars. split; [by intros ->|]. by split.
Qed.

Lemma scan_elem_of (isdecimal : string → bool) (s : string) :
  ∀ skip b, b ∈ scan isdecimal skip s →
    digit_run isdecimal b
    ∧ ∃ u r, s = u +:+ doss_open +:+ b +:+ String dquote r.
Proof.
  induction s as [|c s IH]; intros skip b Hb.
  - by apply elem_of_nil in Hb.
  - assert (Hlater : ∀ k, b ∈ scan isdecimal k s →
              digit_run isdecimal b
              ∧ ∃ u r, String c s = u +:+ doss_open +:+ b +:+ String dquote r).
    { intros k (Hd & u & r & ->)%IH. split; [done|]. by exists (String c u), r. }
    destruct skip as [|k]; [|by apply (Hlater k)].
    rewrite scan_String in Hb.
    destruct (match_doss isdecimal (String c s)) as [d|] eqn:Hm; [|by apply (Hlater 0)].
    apply elem_of_cons in Hb as [->|Hb]; [|by eapply Hlater].
    apply match_doss_Some_inv in Hm as (Hd & r & ->).
    split; [done|]. by exists "", r.
Qed.

(** X5: every bib number returned comes from a response with status 200,
    is one or more characters that the digit table of the interpreter
    accepts (digits of any script, not only 0 to 9), and stands in the
    text between the opening literal and a closing quote. *)
Theorem extract_bib_numbers_sound (isdecimal : string → bool)
    (requests_get : string → res Response)
    (url : string) (response : Response) (printed bib_numbers : list string) (b : string) :
  requests_get url = Ok response →
  extract_bib_numbers isdecimal requests_get url = Ok (printed, bib_numbers) →
  b ∈ bib_numbers →
  status_code response = 200%Z
  ∧ digit_run isdecimal b
  ∧ ∃ u r, text response = u +:+ doss_open +:+ b +:+ String dquote r.
Proof.
  intros Hget H Hb. unfold extract_bib_numbers in H. rewrite Hget in H. simpl in H.
  destruct (decide (status_code response = 200%Z)) as [Hs|Hs].
  - apply Ok_inj in H. injection H as <- <-. split; [done|]. by eapply scan_elem_of.
  - apply Ok_inj in H. injection H as <- <-. by apply elem_of_nil in Hb.
Qed.

Lemma extract_bib_numbers_sound_witness :
  extract_bib_numbers Samples.isdecimal (Samples.get_200 Samples.mixed_page) url2017
  = Ok ([], ["12"; "7"; "12"; Samples.arabic_12])
  ∧ digit_run Samples.isdecimal Samples.arabic_12
  ∧ ∃ u r, Samples.mixed_page
           = u +:+ doss_open +:+ Samples.arabic_12 +:+ String dquote r.
Proof.
  assert (H : extract_bib_numbers Samples.isdecimal
                (Samples.get_200 Samples.mixed_page) url2017
              = Ok ([], ["12"; "7"; "12"; Samples.arabic_12])) by reflexivity.
  split; [exact H|].
  apply (extract_bib_numbers_sound Samples.isdecimal (Samples.get_200 Samples.mixed_page)
           url2017 (mkResponse 200 Samples.mixed_page Samples.mixed_page)
           [] ["12"; "7"; "12"; Samples.arabic_12] Samples.arabic_12);
    [reflexivity | exact H |].
  do 3 apply list_elem_of_further. apply list_elem_of_here.
Defined.

(** X6: a page served with status 200 whose text does not contain the
    opening literal yields the empty list and prints nothing: no match is
    not a failure. *)
Theorem extract_bib_numbers_no_match (isdecimal : string → bool) (requests_get : string → res Response)
    (url : string) (response : Response) :
  requests_get url = Ok response →
  status_code response = 200%Z →
  occurs doss_open (text response) = false →
  extract_bib_numbers isdecimal requests_get url = Ok ([], []).
Proof.
  intros Hget Hs Hocc. unfold extract_bib_numbers. rewrite Hget. simpl.
  rewrite decide_True by done. unfold re_findall_doss.
  rewrite <- (append_empty_r (text response)).
  rewrite scan_gap; [done|done|by left].
Qed.

Lemma extract_bib_numbers_no_match_witness :
  extract_bib_numbers Samples.isdecimal (Samples.get_200 "<d><classement/></d>") url2017 = Ok ([], []).
Proof.
  apply (extract_bib_numbers_no_match _ _ _
           (mkResponse 200 "<d><classement/></d>" "<d><classement/></d>"));
    reflexivity.
Defined.

(** ** The checkpoint record *)

Lemma is_ascii_digit_pretty_N_char (x : N) : is_ascii_digit (pretty_N_char x) = true.
Proof. unfold pretty_N_char. by repeat case_match. Qed.

Lemma pretty_N_go_digits (x : N) (s : string) :
  ascii_digits s = true → ascii_digits (pretty_N_go x s) = true.
Proof.
  revert s. induction (N.lt_wf_0 x) as [x _ IH]; intros s Hs.
  assert (x = 0 ∨ 0 < x)%N as [->|Hx] by lia.
  - by rewrite pretty_N_go_0.
  - rewrite pretty_N_go_step by done. apply IH; [by apply N.div_lt|].
    simpl. by rewrite is_ascii_digit_pretty_N_char.
Qed.

Lemma pretty_nat_digits (n : nat) : ascii_digits (pretty n) = true.
Proof.
  unfold pretty, pretty_nat, pretty, pretty_N.
  case_decide; [done|]. by apply pretty_N_go_digits.
Qed.

(** Two runs of digits followed by a space and some text are equal only
    if the runs and the texts are. *)
Lemma digits_space_inj (d d' r r' : string) :
  ascii_digits d = true → ascii_digits d' = true →
  d +:+ String " " r = d' +:+ String " " r' → d = d' ∧ r = r'.
Proof.
  revert d'. induction d as [|c d IH]; intros [|c' d'] Hd Hd' H;
    rewrite ?append_String, ?append_empty_l in H.
  - by injection H as ->.
  - injection H as <- _. simpl in Hd'. done.
  - injection H as -> _. simpl in Hd. done.
  - injection H as -> H. simpl in Hd, Hd'.
    apply andb_prop in Hd as [_ Hd]. apply andb_prop in Hd' as [_ Hd'].
    destruct (IH d' Hd Hd' H) as [-> ->]. done.
Qed.

Lemma field_name : " name" ∈ info_fields.
Proof. compute_done. Qed.
Lemma field_distance : " distance" ∈ info_fields.
Proof. compute_done. Qed.
Lemma field_height : " height" ∈ info_fields.
Proof. compute_done. Qed.
Lemma field_elevation : " total elevation" ∈ info_fields.
Proof. compute_done. Qed.

Create HintDb fields.
#[local] Hint Resolve field_name field_distance field_height field_elevation : fields.

Lemma info_fields_space (f : string) : f ∈ info_fields → ∃ f', f = String " " f'.
Proof.
  unfold info_fields. rewrite !elem_of_cons, elem_of_nil.
  intros [->|[->|[->|[->|[]]]]]; eauto.
Qed.

Lemma info_column_inj (i j : nat) (f g : string) :
  f ∈ info_fields → g ∈ info_fields →
  info_column i f = info_column j g → i = j ∧ f = g.
Proof.
  intros [f' ->]%info_fields_space [g' ->]%info_fields_space H.
  unfold info_column in H.
  assert (H' : pretty i +:+ String " " f' = pretty j +:+ String " " g').
  { change ("Pt" +:+ ?x) with (String "P" (String "t" x)) in H. by injection H. }
  apply digits_space_inj in H' as [Hp ->]; [|apply pretty_nat_digits..].
  split; [|done]. by apply (inj pretty).
Qed.

Lemma info_column_not_Year (j : nat) (f : string) : "Year" ≠ info_column j f.
Proof. unfold info_column. change ("Pt" +:+ ?x) with (String "P" (String "t" x)). done. Qed.

(** The test of the extractor on a name is the exclusion list of the walk. *)
Lemma excluded_test (pt : Element) (n : string) :
  attrib pt !! "n" = Some n →
  bool_decide (n = "Animation 500m") || bool_decide (n = "KM BV SPORT") = negb (kept pt).
Proof.
  intros Hn. unfold kept, name_of, useless. rewrite Hn. simpl.
  destruct (decide (n = "Animation 500m")) as [->|H1]; [done|].
  destruct (decide (n = "KM BV SPORT")) as [->|H2]; [done|].
  rewrite !bool_decide_eq_false_2 by done.
  rewrite bool_decide_eq_true_2; [done|].
  rewrite !not_elem_of_cons. repeat split; try done. apply not_elem_of_nil.
Qed.

Lemma checkpoint_round_eq (info : gmap string pyval) (i : nat) (cp : Element) :
  checkpoint_round (info, i) cp
  = n ← subscript (attrib cp) "n";
    if bool_decide (n = "Animation 500m") || bool_decide (n = "KM BV SPORT") then
      Ok (info, i)
    else
      km ← subscript (attrib cp) "km";
      a ← subscript (attrib cp) "a";
      d ← subscript (attrib cp) "d";
      Ok (<[info_column i " total elevation" := VStr d]>
          (<[info_column i " height" := VStr a]>
          (<[info_column i " distance" := VStr km]>
          (<[info_column i " name" := VStr n]> info))),
          S i).
Proof. reflexivity. Qed.

Lemma checkpoint_rounds (checkpoints : list Element) :
  Forall checkpoint_ok checkpoints →
  ∀ (info0 : gmap string pyval) (i0 : nat),
    ∃ info,
      for_each checkpoint_round checkpoints (info0, i0)
      = Ok (info, i0 + length (List.filter kept checkpoints))
      ∧ (∀ key, (∀ j f, i0 ≤ j < i0 + length (List.filter kept checkpoints) →
                        f ∈ info_fields → key ≠ info_column j f) →
                info !! key = info0 !! key)
      ∧ (∀ j pt, List.filter kept checkpoints !! j = Some pt →
                 slot_filled info (i0 + j) pt).
Proof.
  induction 1 as [|pt pts [[n Hn] Hfields] _ IH]; intros info0 i0.
  - exists info0. simpl. rewrite Nat.add_0_r. split; [done|]. split; [done|].
    intros j pt Hj. by rewrite lookup_nil in Hj.
  - cbn [for_each List.filter]. rewrite checkpoint_round_eq.
    rewrite (bind_Ok _ _ _ (subscript_Some _ _ _ Hn)), (excluded_test _ _ Hn).
    destruct (kept pt) eqn:Hkept; cbn [negb].
    + destruct (Hfields eq_refl) as ([km Hkm] & [a Ha] & [d Hd]).
      rewrite (bind_Ok _ _ _ (subscript_Some _ _ _ Hkm)).
      rewrite (bind_Ok _ _ _ (subscript_Some _ _ _ Ha)).
      rewrite (bind_Ok _ _ _ (subscript_Some _ _ _ Hd)).
      match goal with |- context [Ok (?m, S i0) ≫= _] =>
        rewrite (bind_Ok _ _ (m, S i0) eq_refl);
        destruct (IH m (S i0)) as (info & Hrun & Hframe & Hslots)
      end.
      exists info. cbn [length]. rewrite Nat.add_succ_r. split; [exact Hrun|].
      assert (Hfield : ∀ f, f ∈ info_fields → ∀ j g,
                S i0 ≤ j < S i0 + length (List.filter kept pts) →
                g ∈ info_fields → info_column i0 f ≠ info_column j g).
      { intros f Hf j g Hj Hg [-> _]%info_column_inj; [lia|done|done]. }
      split.
      * intros key Hkey. rewrite Hframe by (intros j f Hj Hf; apply Hkey; [lia|done]).
        rewrite !lookup_insert_ne; [done|..];
          apply not_eq_sym, (Hkey i0); first [lia | auto with fields].
      * intros [|j] pt' Hj.
        -- injection Hj as <-. rewrite Nat.add_0_r. unfold slot_filled.
           rewrite !Hframe by (apply Hfield; auto with fields).
           rewrite Hn, Hkm, Ha, Hd.
           assert (Hne : ∀ f g, f ∈ info_fields → g ∈ info_fields → f ≠ g →
                           info_column i0 f ≠ info_column i0 g).
           { intros f g Hf Hg Hfg [_ ?]%info_column_inj; done. }
           repeat split.
           ++ rewrite !lookup_insert_ne by (apply Hne; auto with fields).
              apply lookup_insert_eq.
           ++ rewrite !lookup_insert_ne by (apply Hne; auto with fields).
              apply lookup_insert_eq.
           ++ rewrite !lookup_insert_ne by (apply Hne; auto with fields).
              apply lookup_insert_eq.
           ++ apply lookup_insert_eq.
        -- rewrite Nat.add_succ_r. by apply (Hslots j pt').
    + rewrite (bind_Ok _ _ (info0, i0) eq_refl). apply IH.
Qed.

(** X7: when every checkpoint element has a name and every race
    checkpoint its distance, height and elevation, the extractor returns
    a record that holds the year, the four fields of the [j]-th race
    checkpoint under the keys of slot [j], and no key of a later slot:
    excluded checkpoints take no slot and need no other attribute. *)
Theorem extract_checkpoints_slots
    (requests_get : string → res Response) (fromstring : string → res Element)
    (url : string) (year : Z) (response : Response) (root : Element) :
  requests_get url = Ok response →
  fromstring (text response) = Ok root →
  Forall checkpoint_ok (findall2 "pts" "pt" root) →
  ∃ info,
    extract_checkpoints requests_get fromstring url year = Ok info
    ∧ info !! "Year" = Some (VInt year)
    ∧ (∀ j pt, List.filter kept (findall2 "pts" "pt" root) !! j = Some pt →
               slot_filled info j pt)
    ∧ (∀ j f, length (List.filter kept (findall2 "pts" "pt" root)) ≤ j →
              f ∈ info_fields → info !! info_column j f = None).
Proof.
  intros Hget Hparse Hok. unfold extract_checkpoints.
  rewrite (bind_Ok _ _ _ Hget), (bind_Ok _ _ _ Hparse).
  destruct (checkpoint_rounds _ Hok {["Year" := VInt year]} 0)
    as (info & Hrun & Hframe & Hslots).
  exists info. rewrite Hrun. split; [done|]. split; [|split].
  - rewrite Hframe; [apply lookup_singleton_eq|].
    intros j f _ _. apply info_column_not_Year.
  - intros j pt Hj. by apply (Hslots j pt).
  - intros j f Hj Hf. rewrite Hframe.
    + apply lookup_singleton_ne, info_column_not_Year.
    + intros j' f' Hj' Hf' [-> _]%info_column_inj; [lia|done|done].
Qed.

Lemma extract_checkpoints_slots_witness :
  ∃ info,
    extract_checkpoints (Samples.get_200 "<d/>") (Samples.parse_as Samples.page_seven)
      "https://livetrail.net/histo/saintelyon_2022/coureur.php?rech=12" 2022 = Ok info
    ∧ info !! "Year" = Some (VInt 2022)
    ∧ (∀ j pt, List.filter kept (findall2 "pts" "pt" Samples.page_seven) !! j = Some pt →
               slot_filled info j pt)
    ∧ (∀ j f, 7 ≤ j → f ∈ info_fields → info !! info_column j f = None).
Proof.
  apply (extract_checkpoints_slots _ _ _ _ (mkResponse 200 "<d/>" "<d/>")
           Samples.page_seven); [reflexivity | reflexivity |].
  repeat constructor; try (by eexists); try done; intros _; by eexists.
Defined.

(** ** When a row is built, and what it holds *)

Lemma attrib_of_Ok_inv (x : option Element) (a : gmap string string) :
  attrib_of x = Ok a → ∃ e, x = Some e ∧ a = attrib e.
Proof. destruct x as [e|]; [|done]. intros H%Ok_inj. eauto. Qed.






Lemma head_filter_Some {A} (P : A → bool) (l : list A) (e : A) :
  head (List.filter P l) = Some e
  ↔ ∃ before after, l = before ++ e :: after ∧ P e = true
                    ∧ Forall (λ x, P x = false) before.
Proof.
  induction l as [|x l IH]; simpl.
  - split; [done|]. intros (before & after & H & _). by destruct before.
  - destruct (P x) eqn:Hx; simpl.
    + split.
      * intros [= ->]. by exists [], l.
      * intros (before & after & H & He & Hbefore).
        destruct before as [|y before]; simpl in H.
        -- by injection H as ->.
        -- injection H as -> _. apply Forall_cons in Hbefore as [Hy _]. congruence.
    + rewrite IH. split.
      * intros (before & after & -> & He & Hbefore).
        exists (x :: before), after. split; [done|]. split; [done|]. by constructor.
      * intros (before & after & H & He & Hbefore).
        destruct before as [|y before]; simpl in H.
        -- injection H as -> _. congruence.
        -- injection H as -> ->. apply Forall_cons in Hbefore as [_ Hbefore].
           by exists before, after.
Qed.

Lemma head_filter_None {A} (P : A → bool) (l : list A) :
  head (List.filter P l) = None ↔ Forall (λ x, P x = false) l.
Proof.
  induction l as [|x l IH]; simpl.
  - split; [by constructor | done].
  - destruct (P x) eqn:Hx; simpl.
    + split; [done|]. intros [Hx' _]%Forall_cons. congruence.
    + rewrite IH. split; [by constructor | by intros [_ ?]%Forall_cons].
Qed.

Lemma has_tag_true (t : string) (e : Element) : has_tag t e = true ↔ tag e = t.
Proof. unfold has_tag. apply bool_decide_eq_true. Qed.

Lemma has_tag_false (t : string) (e : Element) : has_tag t e = false ↔ tag e ≠ t.
Proof. unfold has_tag. apply bool_decide_eq_false. Qed.

(** [find] gives the first element with the tag, in document order. *)
Lemma find1_first_tagged (t : string) (root e : Element) :
  find1 t root = Some e ↔ first_tagged t root e.
Proof.
  unfold find1, findall1, first_tagged. rewrite head_filter_Some.
  split; intros (before & after & H & He & Hbefore); exists before, after;
    (split; [exact H|]); (split; [by apply has_tag_true|]);
    (eapply Forall_impl; [exact Hbefore|]); intros x; apply has_tag_false.
Qed.

Lemma find1_none_tagged (t : string) (root : Element) :
  find1 t root = None ↔ none_tagged t root.
Proof.
  unfold find1, findall1, none_tagged. rewrite head_filter_None.
  split; intros H; (eapply Forall_impl; [exact H|]); intros x; apply has_tag_false.
Qed.

(** X9: the row carries the year and the bib it was built for; the
    [nom], [sx], [cat] and [nat] of the first [identite] element of the
    page in document order and the [clt] of its first [state] element;
    their optional attributes [prenom], [cltcat] and [cltsx] as strings,
    None for one that is missing; the [club] or the empty string; and as
    index the [cote] of the first [palm] element, None when the page has
    no such element or that element has no [cote]. *)
Theorem runner_row_fields (year : Z) (bib : string) (root : Element)
    (row : gmap string pyval) :
  runner_row year bib root = Ok row →
  ∃ identite state name sex category nationality global_rank,
    first_tagged "identite" root identite
    ∧ first_tagged "state" root state
    ∧ attrib identite !! "nom" = Some name
    ∧ attrib identite !! "sx" = Some sex
    ∧ attrib identite !! "cat" = Some category
    ∧ attrib identite !! "nat" = Some nationality
    ∧ attrib state !! "clt" = Some global_rank
    ∧ row !! "Year" = Some (VInt year)
    ∧ row !! "Bib Number" = Some (VStr bib)
    ∧ row !! "Last Name" = Some (VStr name)
    ∧ row !! "Sex" = Some (VStr sex)
    ∧ row !! "Category" = Some (VStr category)
    ∧ row !! "Nationality" = Some (VStr nationality)
    ∧ row !! "Global Rank" = Some (VStr global_rank)
    ∧ row !! "First Name" = Some (from_option VStr VNone (attrib identite !! "prenom"))
    ∧ row !! "Club" = Some (VStr (default "" (attrib identite !! "club")))
    ∧ row !! "Category Rank" = Some (from_option VStr VNone (attrib state !! "cltcat"))
    ∧ row !! "Gender Rank" = Some (from_option VStr VNone (attrib state !! "cltsx"))
    ∧ (∀ palm, first_tagged "palm" root palm →
         row !! "UTMB Index" = Some (from_option VStr VNone (attrib palm !! "cote")))
    ∧ (none_tagged "palm" root → row !! "UTMB Index" = Some VNone).
Proof.
  intros H. unfold runner_row in H. peel H. apply Ok_inj in H. subst row.
  repeat match goal with
  | Hs : subscript _ _ = Ok _ |- _ => apply subscript_Ok_inv in Hs
  | Ha : attrib_of _ = Ok _ |- _ => apply attrib_of_Ok_inv in Ha as (? & ? & ->)
  end.
  do 7 eexists.
  split; [apply find1_first_tagged; eassumption|].
  split; [apply find1_first_tagged; eassumption|].
  do 5 (split; [eassumption|]).
  do 11 (split; [reflexivity|]).
  split.
  - intros palm Hpalm%find1_first_tagged.
    rewrite Hpalm. reflexivity.
  - intros Hnone%find1_none_tagged.
    rewrite Hnone. reflexivity.
Qed.

Lemma runner_row_fields_witness :
  runner_row 2022 "12" Samples.page_full = Ok Samples.row_full
  ∧ Samples.row_full !! "Year" = Some (VInt 2022)
  ∧ Samples.row_full !! "Bib Number" = Some (VStr "12")
  ∧ Samples.row_full !! "Last Name" = Some (VStr "DUPONT")
  ∧ Samples.row_full !! "Global Rank" = Some (VStr "42")
  ∧ Samples.row_full !! "First Name" = Some (VStr "Jean")
  ∧ Samples.row_full !! "Club" = Some (VStr "ASL")
  ∧ Samples.row_full !! "Category Rank" = Some (VStr "7")
  ∧ Samples.row_full !! "Gender Rank" = Some (VStr "40")
  ∧ Samples.row_full !! "UTMB Index" = Some (VStr "650").
Proof.
  assert (Hrow : runner_row 2022 "12" Samples.page_full = Ok Samples.row_full)
    by compute_done.
  split; [exact Hrow|].
  destruct (runner_row_fields 2022 "12" Samples.page_full Samples.row_full Hrow)
    as (identite & state & name & sex & category & nationality & global_rank
        & Hid & Hst & Hnom & _ & _ & _ & Hclt & Hyear & Hbib & Hname & _ & _ & _
        & Hrank & Hprenom & Hclub & Hcltcat & Hcltsx & Hpalm & _).
  apply find1_first_tagged in Hid. apply find1_first_tagged in Hst.
  apply (inj Some) in Hid. apply (inj Some) in Hst. subst identite state.
  apply (inj Some) in Hnom. apply (inj Some) in Hclt. subst name global_rank.
  split; [exact Hyear|]. split; [exact Hbib|]. split; [exact Hname|].
  split; [exact Hrank|]. split; [exact Hprenom|]. split; [exact Hclub|].
  split; [exact Hcltcat|]. split; [exact Hcltsx|].
  apply (Hpalm (Elem "palm" (Samples.attrs [("cote", "650")]) [])).
  apply find1_first_tagged. reflexivity.
Defined.


(** ** A whole year, and the whole run *)

Lemma runner_row_year_bib (year : Z) (bib : string) (root : Element)
    (row : gmap string pyval) :
  runner_row year bib root = Ok row →
  row !! "Year" = Some (VInt year) ∧ row !! "Bib Number" = Some (VStr bib).
Proof.
  intros H. unfold runner_row in H. peel H. apply Ok_inj in H. by subst row.
Qed.

(** The loop over the bibs appends one row per bib, in order. *)
Lemma runner_rounds_Ok_inv (requests_get : string → res Response)
    (fromstring : string → res Element) (year : Z) (base_runner_url : string)
    (bib_numbers : list string) :
  ∀ data data',
    for_each (runner_round requests_get fromstring year base_runner_url)
      bib_numbers data = Ok data' →
    ∃ rows, data' = data ++ rows ∧ Forall2 (row_of year) bib_numbers rows.
Proof.
  induction bib_numbers as [|bib bibs IH]; intros data data' H; simpl in H.
  - apply Ok_inj in H. subst. exists []. by rewrite app_nil_r.
  - apply bind_Ok_inv in H as (data1 & H1 & H).
    unfold runner_round in H1. peel H1. apply Ok_inj in H1. subst data1.
    destruct (IH _ _ H) as (rows & -> & Hrows).
    match goal with Hrow : runner_row _ _ _ = Ok ?row |- _ =>
      exists (row :: rows); split; [by rewrite <- app_assoc|];
      constructor; [by eapply runner_row_year_bib | done]
    end.
Qed.

Lemma extract_checkpoints_Year (requests_get : string → res Response)
    (fromstring : string → res Element) (url : string) (year : Z)
    (info : gmap string pyval) :
  extract_checkpoints requests_get fromstring url year = Ok info →
  info !! "Year" = Some (VInt year).
Proof.
  unfold extract_checkpoints. intros H. peel H.
  destruct (for_each checkpoint_round _ _) as [[info' i]|] eqn:Hrun; [|done].
  apply Ok_inj in H. simpl in H. subst info'.
  revert Hrun.
  apply (for_each_invariant (λ acc : gmap string pyval * nat,
                               acc.1 !! "Year" = Some (VInt year)));
    [|apply lookup_singleton_eq].
  intros [info0 i0] cp [info1 i1] Hyear Hround. cbn [fst] in *.
  rewrite checkpoint_round_eq in Hround.
  apply bind_Ok_inv in Hround as (n & _ & Hround). cbv beta in Hround.
  destruct (_ || _).
  - apply Ok_inj in Hround. by injection Hround as <- <-.
  - peel Hround. apply Ok_inj in Hround. injection Hround as <- <-.
    by rewrite !lookup_insert_ne by apply not_eq_sym, info_column_not_Year.
Qed.

Lemma extract_bib_numbers_printed (isdecimal : string → bool) (requests_get : string → res Response)
    (url : string) (printed bib_numbers : list string) :
  extract_bib_numbers isdecimal requests_get url = Ok (printed, bib_numbers) →
  bib_numbers ≠ [] → printed = [].
Proof.
  unfold extract_bib_numbers. intros H Hne.
  apply bind_Ok_inv in H as (response & _ & H). cbv beta in H.
  destruct (decide _); apply Ok_inj in H; by injection H as <- <-.
Qed.

Lemma year_round_Ok_inv (isdecimal : string → bool) (requests_get : string → res Response)
    (fromstring : string → res Element) (st st' : store)
    (year : Z) (ranking_url runner_url : string) :
  year_round isdecimal requests_get fromstring st (year, (ranking_url, runner_url)) = Ok st' →
  ∃ bib_numbers first info rows,
    extract_bib_numbers isdecimal requests_get ranking_url = Ok ([], bib_numbers)
    ∧ bib_numbers !! 0 = Some first
    ∧ extract_checkpoints requests_get fromstring (runner_url +:+ first) year = Ok info
    ∧ Forall2 (row_of year) bib_numbers rows
    ∧ st' = mkStore (data st ++ rows) (checkpoint_data st ++ [info]) (stdout st)
              (<["Saintelyon_checkpoints.csv" := checkpoint_data st ++ [info]]>
               (<["Saintelyon_Results_new.csv" := data st ++ rows]> (files st))).
Proof.
  unfold year_round. intros H.
  apply bind_Ok_inv in H as ([printed bibs] & Hbibs & H). cbv beta iota in H.
  apply bind_Ok_inv in H as (first & Hfirst%item_Ok_inv & H). cbv beta in H.
  apply bind_Ok_inv in H as (info & Hinfo & H). cbv beta zeta in H.
  apply bind_Ok_inv in H as (data' & Hdata & H). cbv beta in H.
  apply Ok_inj in H. subst st'.
  apply runner_rounds_Ok_inv in Hdata as (rows & -> & Hrows).
  assert (printed = []) as ->.
  { eapply extract_bib_numbers_printed; [exact Hbibs|]. by intros ->. }
  exists bibs, first, info, rows. by rewrite app_nil_r.
Qed.

(** X10: a year that goes through adds one row per bib number of the
    ranking page, in order, each with that year and bib, after the rows
    already there; it adds one checkpoint record for the year, prints
    nothing, and leaves both tables saved in full. *)
Theorem year_round_success (isdecimal : string → bool) (requests_get : string → res Response)
    (fromstring : string → res Element) (st st' : store)
    (year : Z) (ranking_url runner_url : string) :
  year_round isdecimal requests_get fromstring st (year, (ranking_url, runner_url)) = Ok st' →
  ∃ bib_numbers rows info,
    extract_bib_numbers isdecimal requests_get ranking_url = Ok ([], bib_numbers)
    ∧ bib_numbers ≠ []
    ∧ data st' = data st ++ rows
    ∧ Forall2 (row_of year) bib_numbers rows
    ∧ checkpoint_data st' = checkpoint_data st ++ [info]
    ∧ info !! "Year" = Some (VInt year)
    ∧ stdout st' = stdout st
    ∧ files st' !! "Saintelyon_Results_new.csv" = Some (data st')
    ∧ files st' !! "Saintelyon_checkpoints.csv" = Some (checkpoint_data st').
Proof.
  intros (bibs & first & info & rows & Hbibs & Hfirst & Hinfo & Hrows & ->)%year_round_Ok_inv.
  exists bibs, rows, info. simpl.
  split; [done|]. split; [by intros ->|]. split; [done|]. split; [done|].
  split; [done|]. split; [by eapply extract_checkpoints_Year|]. split; [done|].
  split; [|apply lookup_insert_eq].
  rewrite lookup_insert_ne by done. apply lookup_insert_eq.
Qed.

Lemma year_round_success_witness :
  ∃ bib_numbers rows info,
    extract_bib_numbers Samples.isdecimal Scenarios.get Scenarios.ranking_url_2022 = Ok ([], bib_numbers)
    ∧ bib_numbers ≠ []
    ∧ data Scenarios.after_2022 = data initial_store ++ rows
    ∧ Forall2 (row_of 2022) bib_numbers rows
    ∧ checkpoint_data Scenarios.after_2022 = checkpoint_data initial_store ++ [info]
    ∧ info !! "Year" = Some (VInt 2022)
    ∧ stdout Scenarios.after_2022 = stdout initial_store
    ∧ files Scenarios.after_2022 !! "Saintelyon_Results_new.csv"
      = Some (data Scenarios.after_2022)
    ∧ files Scenarios.after_2022 !! "Saintelyon_checkpoints.csv"
      = Some (checkpoint_data Scenarios.after_2022).
Proof.
  apply (year_round_success Samples.isdecimal Scenarios.get Scenarios.parse initial_store
           Scenarios.after_2022 2022 Scenarios.ranking_url_2022 Scenarios.runner_url_2022).
  compute_done.
Defined.

(** The loop over the years: nothing is printed, one checkpoint record
    per year is added in the order of the years, rows are only added,
    and after at least one year both tables are saved in full. *)
Lemma years_Ok_inv (isdecimal : string → bool) (requests_get : string → res Response)
    (fromstring : string → res Element) (years : list (Z * (string * string))) :
  ∀ st st',
    for_each (year_round isdecimal requests_get fromstring) years st = Ok st' →
    stdout st' = stdout st
    ∧ map (.!! "Year") (checkpoint_data st')
      = map (.!! "Year") (checkpoint_data st) ++ map (λ entry, Some (VInt entry.1)) years
    ∧ (∃ rows, data st' = data st ++ rows)
    ∧ (years ≠ [] →
       files st' !! "Saintelyon_Results_new.csv" = Some (data st')
       ∧ files st' !! "Saintelyon_checkpoints.csv" = Some (checkpoint_data st')).
Proof.
  induction years as [|[year [u1 u2]] years IH]; intros st st' H; simpl in H.
  - apply Ok_inj in H. subst st'. split; [done|].
    split; [simpl; by rewrite app_nil_r|].
    split; [exists []; by rewrite app_nil_r | done].
  - apply bind_Ok_inv in H as (st1 & H1 & H).
    destruct (IH _ _ H) as (Hout & Hyears & [rows' Hrows'] & Hfiles).
    apply year_round_Ok_inv in H1
      as (bibs & first & info & rows & _ & _ & Hinfo & _ & ->).
    apply extract_checkpoints_Year in Hinfo. simpl in *.
    split; [done|]. split; [|split].
    + rewrite Hyears, map_app. simpl. rewrite Hinfo. by rewrite <- app_assoc.
    + exists (rows ++ rows'). by rewrite Hrows', <- app_assoc.
    + intros _. destruct years as [|entry years]; [|by apply Hfiles].
      simpl in H. apply Ok_inj in H. subst st'. simpl. split.
      * rewrite lookup_insert_ne by done. apply lookup_insert_eq.
      * apply lookup_insert_eq.
Qed.

(** X11: when the script completes, the results file holds every row,
    the rows of the 2017 table last and in table order; the file of the
    yearly saves holds the rows without those of 2017; the checkpoint
    file holds one record per year of [urls], in that order; and the
    only output is the closing message. *)
Theorem main_success (isdecimal : string → bool) (requests_get : string → res Response)
    (fromstring : string → res Element) (st : store) :
  main isdecimal requests_get fromstring = Ok st →
  ∃ st1 response root,
    for_each (year_round isdecimal requests_get fromstring) urls initial_store = Ok st1
    ∧ requests_get url2017 = Ok response
    ∧ fromstring (content response) = Ok root
    ∧ data st = data st1 ++ map legacy_row (findall2 "classement" "c" root)
    ∧ files st !! "Saintelyon_Results.csv" = Some (data st)
    ∧ files st !! "Saintelyon_Results_new.csv" = Some (data st1)
    ∧ files st !! "Saintelyon_checkpoints.csv" = Some (checkpoint_data st)
    ∧ map (.!! "Year") (checkpoint_data st) = map (λ entry, Some (VInt entry.1)) urls
    ∧ stdout st
      = ["Data extraction complete! CSV saved as 'Saintelyon_Results.csv' and 'Saintelyon_checkpoints.csv."].
Proof.
  unfold main. intros H.
  apply bind_Ok_inv in H as (st1 & Hyears & H). cbv beta in H.
  apply bind_Ok_inv in H as (response & Hget & H). cbv beta in H.
  apply bind_Ok_inv in H as (root & Hparse & H). cbv beta zeta in H.
  apply Ok_inj in H. subst st.
  destruct (years_Ok_inv _ _ _ _ _ _ Hyears) as (Hout & Hcps & _ & Hfiles).
  destruct Hfiles as [Hnew _]; [done|].
  exists st1, response, root. simpl.
  split; [done|]. split; [done|]. split; [done|].
  split; [apply legacy_loop_eq|].
  split; [rewrite lookup_insert_ne by done; apply lookup_insert_eq|].
  split; [by rewrite !lookup_insert_ne by done|].
  split; [apply lookup_insert_eq|].
  split; [exact Hcps|]. by rewrite Hout.
Qed.

Lemma main_success_witness :
  ∃ st1 response root,
    for_each (year_round Samples.isdecimal Scenarios.get Scenarios.parse) urls initial_store = Ok st1
    ∧ Scenarios.get url2017 = Ok response
    ∧ Scenarios.parse (content response) = Ok root
    ∧ data Scenarios.final_store
      = data st1 ++ map legacy_row (findall2 "classement" "c" root)
    ∧ files Scenarios.final_store !! "Saintelyon_Results.csv"
      = Some (data Scenarios.final_store)
    ∧ files Scenarios.final_store !! "Saintelyon_Results_new.csv" = Some (data st1)
    ∧ files Scenarios.final_store !! "Saintelyon_checkpoints.csv"
      = Some (checkpoint_data Scenarios.final_store)
    ∧ map (.!! "Year") (checkpoint_data Scenarios.final_store)
      = map (λ entry, Some (VInt entry.1)) urls
    ∧ stdout Scenarios.final_store
      = ["Data extraction complete! CSV saved as 'Saintelyon_Results.csv' and 'Saintelyon_checkpoints.csv."].
Proof.
  apply (main_success Samples.isdecimal Scenarios.get Scenarios.parse Scenarios.final_store).
  compute_done.
Defined.

(** X12: a runner page answered with a client or server error status
    ends the year with [HTTPError], even when the pages of the bibs
    before it gave their rows: the runner is not skipped and the saving
    step of the year is not reached. *)
Theorem year_round_dead_runner_page (isdecimal : string → bool) (requests_get : string → res Response)
    (fromstring : string → res Element) (st : store)
    (year : Z) (ranking_url runner_url : string)
    (printed before after : list string) (bib first : string)
    (info : gmap string pyval) (rows : list (gmap string pyval))
    (response : Response) :
  extract_bib_numbers isdecimal requests_get ranking_url = Ok (printed, before ++ bib :: after) →
  head (before ++ bib :: after) = Some first →
  extract_checkpoints requests_get fromstring (runner_url +:+ first) year = Ok info →
  for_each (runner_round requests_get fromstring year runner_url) before (data st)
  = Ok rows →
  requests_get (runner_url +:+ bib) = Ok response →
  (400 ≤ status_code response < 600)%Z →
  year_round isdecimal requests_get fromstring st (year, (ranking_url, runner_url))
  = Raise HTTPError.
Proof.
  intros Hbibs Hfirst Hinfo Hbefore Hget Hstatus. unfold year_round.
  rewrite (bind_Ok _ _ _ Hbibs). cbv beta iota.
  assert (Hitem : item (before ++ bib :: after) 0 = Ok first).
  { apply item_Some. by rewrite <- head_lookup. }
  rewrite (bind_Ok _ _ _ Hitem), (bind_Ok _ _ _ Hinfo). cbv beta zeta.
  rewrite for_each_app, (bind_Ok _ _ _ Hbefore).
  erewrite for_each_cons_Raise; [done|].
  unfold runner_round. rewrite (bind_Ok _ _ _ Hget).
  unfold raise_for_status. by rewrite bool_decide_eq_true_2.
Qed.

Lemma year_round_dead_runner_page_witness :
  year_round Samples.isdecimal Scenarios.get_dead Scenarios.parse initial_store
    (2022%Z, (Scenarios.ranking_url_2022, Scenarios.runner_url_2022))
  = Raise HTTPError.
Proof.
  apply (year_round_dead_runner_page Samples.isdecimal Scenarios.get_dead Scenarios.parse initial_store
           2022 Scenarios.ranking_url_2022 Scenarios.runner_url_2022
           [] ["12"] ["12"] "7" "12"
           (default ∅ (head (checkpoint_data Scenarios.after_2022)))
           (take 1 (data Scenarios.after_2022))
           (mkResponse 404 "Not Found" ""));
    first [compute_done | reflexivity | done].
Defined.

(** ** A checkpoint element with a missing attribute *)

Lemma checkpoint_round_missing (info : gmap string pyval) (i : nat) (pt : Element)
    (k : string) :
  missing_attribute pt = Some k → checkpoint_round (info, i) pt = Raise (KeyError k).
Proof.
  unfold missing_attribute. intros H. rewrite checkpoint_round_eq.
  destruct (attrib pt !! "n") as [n|] eqn:Hn.
  - rewrite (bind_Ok _ _ _ (subscript_Some _ _ _ Hn)), (excluded_test _ _ Hn).
    destruct (kept pt); [|done]. cbn [negb]. unfold subscript.
    destruct (attrib pt !! "km"); [|by injection H as <-].
    destruct (attrib pt !! "a"); [|by injection H as <-].
    destruct (attrib pt !! "d"); [done|by injection H as <-].
  - injection H as <-. unfold subscript. by rewrite Hn.
Qed.

(** X13: the extractor raises [KeyError] for the first attribute it does
    not find: on the first checkpoint element, in document order, that
    lacks its name or, being a race checkpoint, its distance, height or
    elevation. *)
Theorem extract_checkpoints_missing_attribute
    (requests_get : string → res Response) (fromstring : string → res Element)
    (url : string) (year : Z) (response : Response) (root : Element)
    (before after : list Element) (pt : Element) (k : string) :
  requests_get url = Ok response →
  fromstring (text response) = Ok root →
  findall2 "pts" "pt" root = before ++ pt :: after →
  Forall checkpoint_ok before →
  missing_attribute pt = Some k →
  extract_checkpoints requests_get fromstring url year = Raise (KeyError k).
Proof.
  intros Hget Hparse Hpts Hbefore Hmissing. unfold extract_checkpoints.
  rewrite (bind_Ok _ _ _ Hget), (bind_Ok _ _ _ Hparse). cbv zeta.
  rewrite Hpts, for_each_app.
  destruct (checkpoint_rounds _ Hbefore {["Year" := VInt year]} 0) as (info & Hrun & _).
  rewrite (bind_Ok _ _ _ Hrun).
  by rewrite (for_each_cons_Raise _ _ _ _ _ (checkpoint_round_missing _ _ _ _ Hmissing)).
Qed.

Lemma extract_checkpoints_missing_attribute_witness :
  extract_checkpoints (Samples.get_200 "<d/>")
    (Samples.parse_as
       (Samples.runner_page
          [Samples.pt "0" "Animation 500m"; Samples.pt "1" "A";
           Elem "pt" (Samples.attrs [("idpt", "2"); ("n", "B"); ("km", "21")]) [];
           Elem "pt" (Samples.attrs [("idpt", "3")]) []] [] []))
    "https://livetrail.net/histo/saintelyon_2022/coureur.php?rech=12" 2022
  = Raise (KeyError "a").
Proof.
  apply (extract_checkpoints_missing_attribute _ _ _ _ (mkResponse 200 "<d/>" "<d/>")
           (Samples.runner_page
              [Samples.pt "0" "Animation 500m"; Samples.pt "1" "A";
               Elem "pt" (Samples.attrs [("idpt", "2"); ("n", "B"); ("km", "21")]) [];
               Elem "pt" (Samples.attrs [("idpt", "3")]) []] [] [])
           [Samples.pt "0" "Animation 500m"; Samples.pt "1" "A"]
           [Elem "pt" (Samples.attrs [("idpt", "3")]) []]
           (Elem "pt" (Samples.attrs [("idpt", "2"); ("n", "B"); ("km", "21")]) []));
    try reflexivity.
  repeat constructor; try (by eexists); intros _; by eexists.
Defined.
